(** * CrossBow: the security agent system (Agent.py) and its shell (crossbow_cli.py)

    A shallow embedding of [SecurityAgentSystem] and of the command loop
    of the CLI.  Python code that raises, prints or mutates locals is
    written in a state-and-exception monad whose state survives a raise,
    as Python's locals and attributes do; the third-party constructors
    (agno, uuid) are data constructors guarded by the oracles of an
    environment record [Env]. *)

From Stdlib Require Import String Ascii.
From stdpp Require Import base option list strings pretty gmap.

Open Scope string_scope.

(** ** Python values and control *)

Module Py.

(** The exception classes the two files can tell apart.
    [ModuleNotFoundError] is a subclass of [ImportError]; every class
    here is a subclass of [Exception]. *)
Inductive ExcClass :=
| ImportError
| ModuleNotFoundError
| KeyError
| OtherException.

Record Exception := mkExc { exc_class : ExcClass; exc_msg : string }.

(** [isinstance(e, ImportError)] *)
Definition is_ImportError (e : Exception) : bool :=
  match exc_class e with
  | ImportError | ModuleNotFoundError => true
  | _ => false
  end.

Inductive Result (A : Type) :=
| Ok (a : A)
| Raise (e : Exception).
Arguments Ok {A} a.
Arguments Raise {A} e.

(** A computation over a state [S]: it returns or raises, and in both
    cases hands on the state it has reached. *)
Definition M (S A : Type) : Type := S → Result A * S.

Definition ret {S A} (a : A) : M S A := λ s, (Ok a, s).

Definition bind {S A B} (m : M S A) (k : A → M S B) : M S B :=
  λ s, match m s with
       | (Ok a, s') => k a s'
       | (Raise e, s') => (Raise e, s')
       end.

Definition raise {S A} (e : Exception) : M S A := λ s, (Raise e, s).

(** [try: m  except Exception as e: h e] *)
Definition try_except {S A} (m : M S A) (h : Exception → M S A) : M S A :=
  λ s, match m s with
       | (Ok a, s') => (Ok a, s')
       | (Raise e, s') => h e s'
       end.

(** [try: m  except ImportError: h] -- other classes pass through. *)
Definition try_except_ImportError {S A} (m : M S A) (h : M S A) : M S A :=
  λ s, match m s with
       | (Ok a, s') => (Ok a, s')
       | (Raise e, s') => if is_ImportError e then h s' else (Raise e, s')
       end.

Definition gets {S A} (f : S → A) : M S A := λ s, (Ok (f s), s).
Definition modify {S} (f : S → S) : M S unit := λ s, (Ok tt, f s).

(** [for x in l: body x] *)
Fixpoint for_in {S A} (l : list A) (body : A → M S unit) : M S unit :=
  match l with
  | [] => ret tt
  | x :: l' => bind (body x) (λ _, for_in l' body)
  end.

(** Run a computation on the first component of a pair state: the
    second component holds the caller's locals. *)
Definition lift_fst {W L A} (m : M W A) : M (W * L) A :=
  λ s, match m s.1 with (r, w') => (r, (w', s.2)) end.

(** [sub in s] on [str] *)
Fixpoint str_in (sub s : string) : bool :=
  match s with
  | EmptyString => String.prefix sub EmptyString
  | String _ s' => String.prefix sub s || str_in sub s'
  end.

(** [s.startswith(p)] *)
Definition startswith (s p : string) : bool := String.prefix p s.

(** A [dict] literal: later entries overwrite earlier ones. *)
Definition dict_of {V} (l : list (string * V)) : gmap string V :=
  fold_left (λ m kv, <[kv.1 := kv.2]> m) l ∅.

(** [d[k]] *)
Definition getitem {S} (d : gmap string string) (k : string) : M S string :=
  match d !! k with
  | Some v => ret v
  | None => raise (mkExc KeyError k)
  end.

(** [d.get(k, dflt)] *)
Definition get_or (d : gmap string string) (k dflt : string) : string :=
  default dflt (d !! k).

(** [str.lower] on ASCII text; a reference instance for the
    environment's [lower]. *)
Definition ascii_lower_char (c : ascii) : ascii :=
  let n := nat_of_ascii c in
  if (65 <=? n)%nat && (n <=? 90)%nat then ascii_of_nat (n + 32) else c.

Fixpoint ascii_lower (s : string) : string :=
  match s with
  | EmptyString => EmptyString
  | String c s' => String (ascii_lower_char c) (ascii_lower s')
  end.

End Py.

Import Py.

Declare Scope py_scope.
Delimit Scope py_scope with py.
Notation "'do' x <- m ; k" := (bind m (λ x, k))
  (at level 10, x pattern, m at level 100, k at level 200) : py_scope.
Notation "m ;; k" := (bind m (λ _, k))
  (at level 100, k at level 200, right associativity) : py_scope.
Open Scope py_scope.

(** ** The world outside the two files *)

(** What the process has written or asked of its collaborators, oldest
    first. *)
Inductive Event :=
| Print (line : string)
| ClearScreen
| Banner (model_id : string) (memory storage mcp : bool) (mcp_count : nat)
| Help
| Status (model_id : string) (memory storage mcp : bool) (mcp_count : nat)
| TeamPrintResponse (task : string) (stream : bool) (session_id : string).

Record World := mkWorld {
  draws : nat;            (** how many UUIDs the process has drawn *)
  stdout : list Event;
}.

Definition print {L} (line : string) : M (World * L) unit :=
  modify (λ s, (mkWorld (draws s.1) (stdout s.1 ++ [Print line]), s.2)).

Definition emit (ev : Event) : M World unit :=
  modify (λ w, mkWorld (draws w) (stdout w ++ [ev])).

(** ** Agent.py *)

Module Agent.

(** *** Collaborators' objects *)

(** Model adapters of agno ([agno.models.*]). *)
Inductive Model :=
| Claude (id : string)
| OpenAIChat (id : string)
| Gemini (id : string)
| LiteLLM (id name : string).

(** Capabilities: the functions of [src.tools.SECURITY_TOOLS], agno's
    two built-in toolkits and its two MCP toolkits. *)
Inductive Tool :=
| Function (name : string)
| DuckDuckGoTools
| FileTools (base_dir : string) (enable_save_file enable_delete_file : bool)
| MultiMCPTools (commands : list string)
| MCPTools (url transport : string).

#[global] Instance Tool_eq_dec : EqDecision Tool.
Proof. solve_decision. Defined.

Record SqliteDb := mkSqliteDb { db_file : string }.

(** An entry of [mcp_servers]: a [dict] with the keys ['name'],
    ['command'] or ['url'], ['transport']. *)
Abbreviation Server := (gmap string string).

(** Values of the keyword dictionaries. *)
Inductive Value :=
| VBool (b : bool)
| VStr (s : string)
| VStrs (l : list string)
| VModel (m : Model)
| VTools (l : list Tool)
| VDb (d : SqliteDb).

(** An [Agent] object: its three explicit arguments and the shared
    keyword dictionary [agent_kwargs] it was built with. *)
Record Agent := mkAgent {
  name : string;
  role : string;
  instructions : list string;
  kwargs : gmap string Value;
}.

(** A [Team] object: the ['members'] entry of [team_kwargs] and the
    other entries. *)
Record Team := mkTeam {
  members : list Agent;
  team_kwargs : gmap string Value;
}.

(** The constants of [src.prompts], which [Agent.py] star-imports. *)
Record Prompts := {
  ANDROID_SAST_AGENT_PROMPT : string;
  BLUETEAM_AGENT_PROMPT : string;
  BUG_BOUNTY_AGENT_PROMPT : string;
  CODE_AGENT : string;
  DFIR_AGENT_PROMPT : string;
  EMAIL_SPOOF_AGENT_PROMPT : string;
  MEMPORY_ANALYSIS_PROMPT : string;
  NETWORK_ANALYSER_PROMPT : string;
  RED_TEAM_AGENT_PROMPT : string;
  REPlAY_ATTACK_AGENT_PROMPT : string;
  REPORTING_AGENT_PROMPT : string;
  TRIAGER_AGENT_PROMPT : string;
  REVERSE_ENGINEERING_AGENT_PROMPT : string;
  SUBGHZ_AGENT_PROMPT : string;
  WIFI_SECURITY_AGENT_PROMPT : string;
  SOURCE_CODE_ANALYZER_AGENT_PROMPT : string;
  THOUGHT_ROUTER_MANAGER_AGENT_PROMPT : string;
}.

(** What the interpreter, the installed packages and the machine
    decide. *)
Record Env := {
  (** [str.lower] *)
  lower : string → string;
  (** whether [from agno.models.litellm import LiteLLM] succeeds *)
  litellm_available : bool;
  (** whether [MultiMCPTools(commands)] raises, and what *)
  MultiMCPTools_raises : list string → option Exception;
  (** whether [MCPTools(url=, transport=)] raises, and what *)
  MCPTools_raises : string → string → option Exception;
  (** whether [SqliteDb(db_file=)] raises, and what *)
  SqliteDb_raises : string → option Exception;
  (** whether [Team.print_response(task, stream=, session_id=)] raises *)
  print_response_raises : string → bool → string → option Exception;
  (** [str(uuid.uuid4())], by the number of earlier draws *)
  uuid4 : nat → string;
  (** [src.tools.SECURITY_TOOLS], by name *)
  SECURITY_TOOLS : list string;
  prompts : Prompts;
  (** [str(Path.home() / ".crossbow")] *)
  CROSSBOW_DIR : string;
}.

(** [self] once [__init__] has returned. *)
Record Specialists := {
  android_agent : Agent;
  blue_team_agent : Agent;
  bug_bounty_agent : Agent;
  coding_agent : Agent;
  dfir_agent : Agent;
  email_security_agent : Agent;
  memory_agent : Agent;
  network_agent : Agent;
  red_team_agent : Agent;
  replay_attack_agent : Agent;
  reporting_agent : Agent;
  triage_agent : Agent;
  reverse_engineering_agent : Agent;
  subghz_agent : Agent;
  wifi_agent : Agent;
  source_code_analyzer_agent : Agent;
}.

Record SecurityAgentSystem := {
  model_name : string;
  model : Model;
  use_memory : bool;
  use_storage : bool;
  use_mcp : bool;
  mcp_servers : list Server;
  mcp_tools : option Tool;
  base_tools : list Tool;
  all_tools : list Tool;
  storage_db : option SqliteDb;
  memory_db : option SqliteDb;
  agents : Specialists;
  session_id : string;
  security_team : Team;
}.

Section Methods.

Variable E : Env.

(** *** Calls into the collaborators *)

Definition import_LiteLLM {S} : M S unit :=
  if litellm_available E then ret tt
  else raise (mkExc ImportError "`litellm` not installed").

Definition new_MultiMCPTools {S} (commands : list string) : M S Tool :=
  match MultiMCPTools_raises E commands with
  | Some e => raise e
  | None => ret (MultiMCPTools commands)
  end.

Definition new_MCPTools {S} (url transport : string) : M S Tool :=
  match MCPTools_raises E url transport with
  | Some e => raise e
  | None => ret (MCPTools url transport)
  end.

Definition new_SqliteDb {S} (path : string) : M S SqliteDb :=
  match SqliteDb_raises E path with
  | Some e => raise e
  | None => ret (mkSqliteDb path)
  end.

Definition uuid_uuid4 : M World string :=
  λ w, (Ok (uuid4 E (draws w)), mkWorld (S (draws w)) (stdout w)).

Definition print_response (task : string) (stream : bool) (sid : string)
  : M World unit :=
  emit (TeamPrintResponse task stream sid);;
  match print_response_raises E task stream sid with
  | Some e => raise e
  | None => ret tt
  end.

(** *** [_get_model] *)

Definition _get_model {S} (model_id : string) : M S Model :=
  if str_in "claude" (lower E model_id) then
    ret (Claude model_id)
  else if str_in "gpt" (lower E model_id)
          || str_in "o1" (lower E model_id)
          || str_in "o3" (lower E model_id) then
    ret (OpenAIChat model_id)
  else if str_in "gemini" (lower E model_id) then
    ret (Gemini model_id)
  else
    try_except_ImportError
      (import_LiteLLM;;
       ret (LiteLLM model_id "LiteLLM"))
      (ret (OpenAIChat model_id)).

(** *** [_initialize_tools] *)

(** The locals and attributes the method mutates: the list [tools] and
    [self.mcp_tools]. *)
Record ToolsFrame := mkFrame {
  tools : list Tool;
  self_mcp_tools : option Tool;
}.

Definition tools_append (t : Tool) : M (World * ToolsFrame) unit :=
  modify (λ s, (s.1, mkFrame (tools s.2 ++ [t]) (self_mcp_tools s.2))).

Definition set_mcp_tools (t : Tool) : M (World * ToolsFrame) unit :=
  modify (λ s, (s.1, mkFrame (tools s.2) (Some t))).

(** The first loop: it fills the fresh lists [commands] and
    [url_servers] and calls nothing that raises on a [dict]. *)
Definition separate (servers : list Server) : list string * list Server :=
  fold_left
    (λ (acc : list string * list Server) (server : Server),
       match server !! "command" with
       | Some command => ((acc.1 ++ [command])%list, acc.2)
       | None =>
           match server !! "url" with
           | Some _ => (acc.1, (acc.2 ++ [server])%list)
           | None => acc
           end
       end)
    servers ([], []).

Definition warn_mcp_server (server_name : string) (e : Exception) : string :=
  "⚠️  Warning: Failed to initialize MCP server " ++ server_name ++ ": " ++ exc_msg e.

Definition warn_mcp_tools (e : Exception) : string :=
  "⚠️  Warning: Failed to initialize MCP tools: " ++ exc_msg e.

Definition attach_url_server (url_server : Server) : M (World * ToolsFrame) unit :=
  try_except
    (do url <- getitem url_server "url";
     do mcp_tool <- new_MCPTools url (get_or url_server "transport" "streamable-http");
     tools_append mcp_tool)
    (λ e, print (warn_mcp_server (get_or url_server "name" "unknown") e)).

Definition initialize_mcp (self_mcp_servers : list Server)
  : M (World * ToolsFrame) unit :=
  try_except
    (let '(commands, url_servers) := separate self_mcp_servers in
     (if bool_decide (commands ≠ []) then
        do bridge <- new_MultiMCPTools commands;
        set_mcp_tools bridge;;
        tools_append bridge
      else ret tt);;
     for_in url_servers attach_url_server)
    (λ e, print (warn_mcp_tools e)).

(** Returns [tools] and the final [self.mcp_tools] (which [__init__]
    has set to [None] before the call). *)
Definition _initialize_tools (self_use_mcp : bool) (self_mcp_servers : list Server)
    (self_base_tools : list Tool) : M World (list Tool * option Tool) :=
  λ w,
    let frame := mkFrame (map Function (SECURITY_TOOLS E) ++ self_base_tools) None in
    let body :=
      if self_use_mcp && bool_decide (self_mcp_servers ≠ []) then
        initialize_mcp self_mcp_servers
      else ret tt in
    match body (w, frame) with
    | (Ok _, (w', fr)) => (Ok (tools fr, self_mcp_tools fr), w')
    | (Raise e, (w', _)) => (Raise e, w')
    end.

(** *** [_create_all_agents] *)

(** The dictionary [agent_kwargs] after the two conditional blocks; an
    object that is not [None] is truthy. *)
Definition agent_kwargs (self_model : Model) (self_all_tools : list Tool)
    (self_storage_db self_memory_db : option SqliteDb) : gmap string Value :=
  let kw := dict_of [("model", VModel self_model); ("tools", VTools self_all_tools)] in
  let kw :=
    match self_storage_db with
    | Some db => <["add_history_to_context" := VBool true]> (<["db" := VDb db]> kw)
    | None => kw
    end in
  match self_memory_db with
  | Some db =>
      <["add_history_to_context" := VBool true]>
        (<["enable_user_memories" := VBool true]> (<["db" := VDb db]> kw))
  | None => kw
  end.

Definition _create_all_agents (self_model : Model) (self_all_tools : list Tool)
    (self_storage_db self_memory_db : option SqliteDb) : Specialists :=
  let kw := agent_kwargs self_model self_all_tools self_storage_db self_memory_db in
  let P := prompts E in
  {| android_agent :=
       mkAgent "Android SAST Specialist" "Android Security Testing Expert"
         [ANDROID_SAST_AGENT_PROMPT P] kw;
     blue_team_agent :=
       mkAgent "Blue Team Defender" "Defense and Security Monitoring"
         [BLUETEAM_AGENT_PROMPT P] kw;
     bug_bounty_agent :=
       mkAgent "Bug Bounty Hunter" "Web Vulnerability Research"
         [BUG_BOUNTY_AGENT_PROMPT P] kw;
     coding_agent :=
       mkAgent "Security Developer" "Security Tool Development"
         [CODE_AGENT P] kw;
     dfir_agent :=
       mkAgent "DFIR Investigator" "Digital Forensics and Incident Response"
         [DFIR_AGENT_PROMPT P] kw;
     email_security_agent :=
       mkAgent "Email Security Analyst" "Email Configuration Security"
         [EMAIL_SPOOF_AGENT_PROMPT P] kw;
     memory_agent :=
       mkAgent "Memory Forensics Expert" "Runtime Memory Analysis"
         [MEMPORY_ANALYSIS_PROMPT P] kw;
     network_agent :=
       mkAgent "Network Security Analyst" "Network Traffic Analysis"
         [NETWORK_ANALYSER_PROMPT P] kw;
     red_team_agent :=
       mkAgent "Red Team Operator" "Offensive Security Operations"
         [RED_TEAM_AGENT_PROMPT P] kw;
     replay_attack_agent :=
       mkAgent "Replay Attack Specialist" "Network Replay and Analysis"
         [REPlAY_ATTACK_AGENT_PROMPT P] kw;
     reporting_agent :=
       mkAgent "Security Reporter" "Security Documentation"
         [REPORTING_AGENT_PROMPT P] kw;
     triage_agent :=
       mkAgent "Vulnerability Validator" "Security Finding Verification"
         [TRIAGER_AGENT_PROMPT P] kw;
     reverse_engineering_agent :=
       mkAgent "Reverse Engineer" "Binary Analysis and RE"
         [REVERSE_ENGINEERING_AGENT_PROMPT P] kw;
     subghz_agent :=
       mkAgent "RF Security Expert" "Sub-GHz Radio Analysis"
         [SUBGHZ_AGENT_PROMPT P] kw;
     wifi_agent :=
       mkAgent "WiFi Security Tester" "Wireless Network Security"
         [WIFI_SECURITY_AGENT_PROMPT P] kw;
     source_code_analyzer_agent :=
       mkAgent "Source Code Analyzer" "SAST and Exploit Verification Specialist"
         [SOURCE_CODE_ANALYZER_AGENT_PROMPT P] kw |}.

(** *** [_create_security_team] *)

(** The ['members'] entry of [team_kwargs]. *)
Definition team_members (a : Specialists) : list Agent :=
  [ android_agent a;
    blue_team_agent a;
    bug_bounty_agent a;
    coding_agent a;
    dfir_agent a;
    email_security_agent a;
    memory_agent a;
    network_agent a;
    red_team_agent a;
    replay_attack_agent a;
    reporting_agent a;
    triage_agent a;
    reverse_engineering_agent a;
    subghz_agent a;
    wifi_agent a;
    source_code_analyzer_agent a ].

(** Returns the new [self.session_id] and [self.security_team]. *)
Definition _create_security_team (self_model : Model) (self_agents : Specialists)
    (self_memory_db : option SqliteDb) : M World (string * Team) :=
  do self_session_id <- uuid_uuid4;
  let team_kwargs :=
    dict_of [ ("name", VStr "Security Assessment Team");
              ("model", VModel self_model);
              ("respond_directly", VBool true);
              ("markdown", VBool true);
              ("instructions", VStrs [THOUGHT_ROUTER_MANAGER_AGENT_PROMPT (prompts E)]);
              ("show_members_responses", VBool true);
              ("add_history_to_context", VBool true) ] in
  let team_kwargs :=
    match self_memory_db with
    | Some db => <["enable_user_memories" := VBool true]> (<["db" := VDb db]> team_kwargs)
    | None => team_kwargs
    end in
  ret (self_session_id, mkTeam (team_members self_agents) team_kwargs).

(** *** [__init__] *)

Definition storage_path : string := CROSSBOW_DIR E ++ "/agent_storage.db".
Definition memory_path : string := CROSSBOW_DIR E ++ "/crossbow_agents.db".

Definition __init__ (model_name : string)
    (use_memory use_storage use_mcp : bool) (mcp_servers : option (list Server))
  : M World SecurityAgentSystem :=
  do self_model <- _get_model model_name;
  let self_mcp_servers := default [] mcp_servers in
  let self_base_tools := [DuckDuckGoTools; FileTools "." true false] in
  do (self_all_tools, self_mcp_tools) <-
    _initialize_tools use_mcp self_mcp_servers self_base_tools;
  do self_storage_db <-
    (if use_storage then
       do db <- new_SqliteDb storage_path; ret (Some db)
     else ret None);
  do self_memory_db <-
    (if use_memory then
       do db <- new_SqliteDb memory_path; ret (Some db)
     else ret None);
  let self_agents :=
    _create_all_agents self_model self_all_tools self_storage_db self_memory_db in
  do (self_session_id, self_security_team) <-
    _create_security_team self_model self_agents self_memory_db;
  ret {| model_name := model_name;
         model := self_model;
         use_memory := use_memory;
         use_storage := use_storage;
         use_mcp := use_mcp;
         mcp_servers := self_mcp_servers;
         mcp_tools := self_mcp_tools;
         base_tools := self_base_tools;
         all_tools := self_all_tools;
         storage_db := self_storage_db;
         memory_db := self_memory_db;
         agents := self_agents;
         session_id := self_session_id;
         security_team := self_security_team |}.

(** *** [run_assessment] and [get_agent] *)

Definition run_assessment (self : SecurityAgentSystem) (task : string) (stream : bool)
  : M World unit :=
  print_response task stream (session_id self).

(** The dictionary literal [agents] of [get_agent]. *)
Definition agent_table (self : SecurityAgentSystem) : gmap string Agent :=
  let a := agents self in
  dict_of [ ("android", android_agent a);
            ("blue_team", blue_team_agent a);
            ("bug_bounty", bug_bounty_agent a);
            ("coding", coding_agent a);
            ("dfir", dfir_agent a);
            ("email", email_security_agent a);
            ("memory", memory_agent a);
            ("network", network_agent a);
            ("red_team", red_team_agent a);
            ("replay", replay_attack_agent a);
            ("reporting", reporting_agent a);
            ("triage", triage_agent a);
            ("reverse_engineering", reverse_engineering_agent a);
            ("rf", subghz_agent a);
            ("wifi", wifi_agent a);
            ("source_code", source_code_analyzer_agent a);
            ("sast", source_code_analyzer_agent a) ].

(** [None] of Python is [None] here. *)
Definition get_agent {S} (self : SecurityAgentSystem) (agent_type : string)
  : M S (option Agent) :=
  ret (agent_table self !! lower E agent_type).

End Methods.

End Agent.

(** ** crossbow_cli.py *)

Module crossbow_cli.

Import Agent.

(** The locals of [main] that the loop reads and assigns. *)
Record Locals := mkLocals {
  current_model : string;
  memory_enabled : bool;
  storage_enabled : bool;
  mcp_enabled : bool;
  mcp_servers : list Server;
  agent_system : SecurityAgentSystem;
}.

Definition set_current_model (v : string) (l : Locals) : Locals :=
  mkLocals v (memory_enabled l) (storage_enabled l) (mcp_enabled l)
    (mcp_servers l) (agent_system l).
Definition set_memory_enabled (v : bool) (l : Locals) : Locals :=
  mkLocals (current_model l) v (storage_enabled l) (mcp_enabled l)
    (mcp_servers l) (agent_system l).
Definition set_storage_enabled (v : bool) (l : Locals) : Locals :=
  mkLocals (current_model l) (memory_enabled l) v (mcp_enabled l)
    (mcp_servers l) (agent_system l).
Definition set_mcp_enabled (v : bool) (l : Locals) : Locals :=
  mkLocals (current_model l) (memory_enabled l) (storage_enabled l) v
    (mcp_servers l) (agent_system l).
Definition set_mcp_servers (v : list Server) (l : Locals) : Locals :=
  mkLocals (current_model l) (memory_enabled l) (storage_enabled l) (mcp_enabled l)
    v (agent_system l).
Definition set_agent_system (v : SecurityAgentSystem) (l : Locals) : Locals :=
  mkLocals (current_model l) (memory_enabled l) (storage_enabled l) (mcp_enabled l)
    (mcp_servers l) v.

(** How an iteration of [while True] ends. *)
Inductive Control := Continue | Break.

(** What the two interactive helpers returned in this iteration, were
    they called: [add_mcp_server()] and [get_model_input()]. *)
Record Answers := {
  add_mcp_server : option Server;
  get_model_input : string;
}.

Definition NL : string := String (ascii_of_nat 10) EmptyString.

Section Main.

Variable E : Env.

Definition assign (f : Locals → Locals) : M (World * Locals) unit :=
  modify (λ s, (s.1, f s.2)).

Definition say (ev : Event) : M (World * Locals) unit := lift_fst (emit ev).

Definition clear_screen : M (World * Locals) unit := say ClearScreen.

(** The banner, as one event: the model takes [os.getcwd()] and the
    printing in [print_banner] to go through. *)
Definition print_banner : M (World * Locals) unit :=
  do l <- gets snd;
  say (Banner (current_model l) (memory_enabled l) (storage_enabled l)
         (mcp_enabled l) (length (mcp_servers l))).

Definition print_status : M (World * Locals) unit :=
  do l <- gets snd;
  say (Status (current_model l) (memory_enabled l) (storage_enabled l)
         (mcp_enabled l) (length (mcp_servers l))).

(** [SecurityAgentSystem(model_name=, use_memory=memory_enabled,
    use_storage=storage_enabled, use_mcp=mcp_enabled,
    mcp_servers=mcp_servers)] with the locals as they are now. *)
Definition construct (model_name : string) : M (World * Locals) SecurityAgentSystem :=
  do l <- gets snd;
  lift_fst (__init__ E model_name (memory_enabled l) (storage_enabled l)
              (mcp_enabled l) (Some (mcp_servers l))).

Definition status_word (b : bool) : string := if b then "enabled" else "disabled".

Definition cmd_memory : M (World * Locals) Control :=
  assign (λ l, set_memory_enabled (negb (memory_enabled l)) l);;
  do new_status <- gets (λ s, status_word (memory_enabled s.2));
  print (NL ++ "🧠 Memory " ++ new_status);;
  print ("🔄 Reinitializing agents with memory " ++ new_status ++ "...");;
  try_except
    (do model_name <- gets (λ s, current_model s.2);
     do sys <- construct model_name;
     assign (set_agent_system sys);;
     print ("✓ Agents reinitialized with memory " ++ new_status);;
     clear_screen;;
     print_banner)
    (λ e,
       print ("✗ Failed to toggle memory: " ++ exc_msg e);;
       assign (λ l, set_memory_enabled (negb (memory_enabled l)) l));;
  ret Continue.

Definition cmd_storage : M (World * Locals) Control :=
  assign (λ l, set_storage_enabled (negb (storage_enabled l)) l);;
  do new_status <- gets (λ s, status_word (storage_enabled s.2));
  print (NL ++ "💾 Storage " ++ new_status);;
  print ("🔄 Reinitializing agents with storage " ++ new_status ++ "...");;
  try_except
    (do model_name <- gets (λ s, current_model s.2);
     do sys <- construct model_name;
     assign (set_agent_system sys);;
     print ("✓ Agents reinitialized with storage " ++ new_status);;
     clear_screen;;
     print_banner)
    (λ e,
       print ("✗ Failed to toggle storage: " ++ exc_msg e);;
       assign (λ l, set_storage_enabled (negb (storage_enabled l)) l));;
  ret Continue.

Definition cmd_mcp : M (World * Locals) Control :=
  assign (λ l, set_mcp_enabled (negb (mcp_enabled l)) l);;
  do new_status <- gets (λ s, status_word (mcp_enabled s.2));
  print (NL ++ "🔌 MCP " ++ new_status);;
  do no_servers <- gets (λ s, mcp_enabled s.2 && bool_decide (mcp_servers s.2 = []));
  (if no_servers : bool then
     print "⚠️  No MCP servers configured yet. Use /add-mcp to add servers."
   else ret tt);;
  print ("🔄 Reinitializing agents with MCP " ++ new_status ++ "...");;
  try_except
    (do model_name <- gets (λ s, current_model s.2);
     do sys <- construct model_name;
     assign (set_agent_system sys);;
     print ("✓ Agents reinitialized with MCP " ++ new_status);;
     clear_screen;;
     print_banner)
    (λ e,
       print ("✗ Failed to toggle MCP: " ++ exc_msg e);;
       assign (λ l, set_mcp_enabled (negb (mcp_enabled l)) l));;
  ret Continue.

(** [mcp_servers.pop()] on the non-empty list it is called on. *)
Definition pop (l : list Server) : list Server := removelast l.

Definition cmd_add_mcp (new_server : option Server) : M (World * Locals) Control :=
  match new_server with
  | Some server =>
      if bool_decide (server ≠ ∅) then
        assign (λ l, set_mcp_servers (mcp_servers l ++ [server]) l);;
        print (NL ++ "✓ Added to MCP servers list");;
        do enabled <- gets (λ s, mcp_enabled s.2);
        (if enabled : bool then
           print "🔄 Reinitializing agents with new MCP server...";;
           try_except
             (do model_name <- gets (λ s, current_model s.2);
              do sys <- construct model_name;
              assign (set_agent_system sys);;
              do n <- gets (λ s, length (mcp_servers s.2));
              print ("✓ Agents reinitialized with " ++ pretty n ++ " MCP servers"))
             (λ e,
                print ("✗ Failed to reinitialize with new MCP server: " ++ exc_msg e);;
                assign (λ l, set_mcp_servers (pop (mcp_servers l)) l))
         else
           print "💡 Tip: Use /mcp to enable MCP server support");;
        ret Continue
      else ret Continue
  | None => ret Continue
  end.

Definition cmd_model (new_model : string) : M (World * Locals) Control :=
  do model_name <- gets (λ s, current_model s.2);
  (if bool_decide (new_model ≠ model_name) then
     print (NL ++ "🔄 Switching to " ++ new_model ++ "...");;
     try_except
       (do sys <- construct new_model;
        assign (set_agent_system sys);;
        assign (set_current_model new_model);;
        print ("✓ Now using " ++ new_model);;
        clear_screen;;
        print_banner)
       (λ e, print ("✗ Failed to switch model: " ++ exc_msg e))
   else ret tt);;
  ret Continue.

(** One iteration of [while True], on the stripped line [user_input]:
    the body of the [try] with the handler for [Exception].  The two
    helpers are not run here: [answers] holds what they returned, and
    what they and the prompt of [input] wrote is not in [stdout].  The
    handler for [KeyboardInterrupt], which is no [Exception], is added
    by [Entry.loop_iteration]. *)
Definition loop_body (user_input : string) (answers : Answers)
  : M (World * Locals) Control :=
  try_except
    (if bool_decide (user_input = "") then ret Continue
     else if startswith user_input "/" then
       let command := lower E user_input in
       if bool_decide (command ∈ ["/quit"; "/exit"; "/q"]) then
         print (NL ++ "👋 Goodbye! Stay secure!");; ret Break
       else if bool_decide (command ∈ ["/help"; "/h"]) then
         say Help;; ret Continue
       else if bool_decide (command ∈ ["/clear"; "/cls"]) then
         clear_screen;; print_banner;; ret Continue
       else if bool_decide (command ∈ ["/status"]) then
         print_status;; ret Continue
       else if bool_decide (command ∈ ["/memory"]) then cmd_memory
       else if bool_decide (command ∈ ["/storage"]) then cmd_storage
       else if bool_decide (command ∈ ["/mcp"]) then cmd_mcp
       else if bool_decide (command ∈ ["/add-mcp"]) then
         cmd_add_mcp (add_mcp_server answers)
       else if bool_decide (command ∈ ["/model"]) then
         cmd_model (get_model_input answers)
       else
         print ("❌ Unknown command: " ++ user_input);;
         print "Type /help for available commands";;
         ret Continue
     else
       print "";;
       do sys <- gets (λ s, agent_system s.2);
       lift_fst (run_assessment E sys user_input true);;
       ret Continue)
    (λ e,
       print (NL ++ "✗ Error: " ++ exc_msg e);;
       print "Please try again or type /help for assistance.";;
       ret Continue).

(** The start of [main], from the resolved [model_id] and flags to the
    first prompt; [None] is [sys.exit(1)]. *)
Definition main_start (model_id : string) (memory storage mcp : bool)
  : M World (option Locals) :=
  do started <-
    try_except
      (do sys <- __init__ E model_id memory storage mcp (Some []);
       ret (Some (mkLocals model_id memory storage mcp [] sys)))
      (λ e,
         emit (Print (NL ++ "✗ Failed to initialize CrossBow agent: " ++ exc_msg e));;
         emit (Print (NL ++ "Make sure you have your OPENAI_API_KEY properly configured."));;
         ret None);
  match started with
  | Some l =>
      emit ClearScreen;;
      emit (Banner model_id memory storage mcp 0);;
      ret (Some l)
  | None => ret None
  end.

End Main.

End crossbow_cli.

(** ** The vocabulary of the specification *)

Module Spec.

Import Agent.

(** The three first-class providers, in the order [_get_model] asks for
    them, with the name fragments that select each. *)
Inductive Provider := Anthropic | OpenAI | Google.

Definition providers : list Provider := [Anthropic; OpenAI; Google].

Definition fragments (p : Provider) : list string :=
  match p with
  | Anthropic => ["claude"]
  | OpenAI => ["gpt"; "o1"; "o3"]
  | Google => ["gemini"]
  end.

Definition adapter (p : Provider) (model_id : string) : Model :=
  match p with
  | Anthropic => Claude model_id
  | OpenAI => OpenAIChat model_id
  | Google => Gemini model_id
  end.

(** The identifier contains, case-insensitively, a fragment of [p]. *)
Definition names (E : Env) (p : Provider) (model_id : string) : bool :=
  existsb (λ f, str_in f (lower E model_id)) (fragments p).

(** URL-based specs as [_initialize_tools] tells them from the
    command-based ones: a spec with a ['command'] is command-based
    whatever else it holds. *)
Definition url_based (server : Server) : bool :=
  bool_decide (server !! "command" = None) && bool_decide (is_Some (server !! "url")).

Definition commands_of (servers : list Server) : list string :=
  omap (λ server : Server, server !! "command") servers.

Definition url_specs_of (servers : list Server) : list Server :=
  List.filter url_based servers.

Definition transport_of (server : Server) : string :=
  get_or server "transport" "streamable-http".

(** The capability a URL-based spec yields, if its attachment does not
    raise. *)
Definition attached (E : Env) (server : Server) : option Tool :=
  match server !! "url" with
  | Some url =>
      match MCPTools_raises E url (transport_of server) with
      | None => Some (MCPTools url (transport_of server))
      | Some _ => None
      end
  | None => None
  end.

(** The warning a URL-based spec yields, if its attachment raises. *)
Definition warned (E : Env) (server : Server) : option Event :=
  match server !! "url" with
  | Some url =>
      match MCPTools_raises E url (transport_of server) with
      | None => None
      | Some e => Some (Print (warn_mcp_server (get_or server "name" "unknown") e))
      end
  | None => Some (Print (warn_mcp_server (get_or server "name" "unknown") (mkExc KeyError "url")))
  end.

(** The combined bridge is built without raising, or is not built. *)
Definition bridge_ok (E : Env) (servers : list Server) : bool :=
  match commands_of servers with
  | [] => true
  | commands => bool_decide (MultiMCPTools_raises E commands = None)
  end.

(** The external part of the capability list, in the order of the
    specification: the bridge, then the URL-based attachments. *)
Definition external_tools (E : Env) (servers : list Server) : list Tool :=
  match commands_of servers with
  | [] => omap (attached E) (url_specs_of servers)
  | commands =>
      match MultiMCPTools_raises E commands with
      | None => MultiMCPTools commands :: omap (attached E) (url_specs_of servers)
      | Some _ => []
      end
  end.

Definition builtin_tools (E : Env) (base : list Tool) : list Tool :=
  map Function (SECURITY_TOOLS E) ++ base.

(** The value [self.mcp_tools] is left with. *)
Definition bridge_of (E : Env) (servers : list Server) : option Tool :=
  match commands_of servers with
  | [] => None
  | commands =>
      match MultiMCPTools_raises E commands with
      | None => Some (MultiMCPTools commands)
      | Some _ => None
      end
  end.

(** The warnings of one pass over the specs, in the order printed. *)
Definition warnings (E : Env) (servers : list Server) : list Event :=
  match commands_of servers with
  | [] => omap (warned E) (url_specs_of servers)
  | commands =>
      match MultiMCPTools_raises E commands with
      | None => omap (warned E) (url_specs_of servers)
      | Some e => [Print (warn_mcp_tools e)]
      end
  end.

(** The capability of a URL-based spec. *)
Definition url_capability (server : Server) : Tool :=
  MCPTools (get_or server "url" "") (transport_of server).

(** The stores the flags ask for can be opened. *)
Definition stores_open (E : Env) (use_memory use_storage : bool) : bool :=
  (negb use_storage || bool_decide (SqliteDb_raises E (storage_path E) = None))
  && (negb use_memory || bool_decide (SqliteDb_raises E (memory_path E) = None)).

(** The adapter [_get_model] settles on. *)
Definition resolved (E : Env) (model_id : string) : Model :=
  match List.find (λ p, names E p model_id) providers with
  | Some p => adapter p model_id
  | None =>
      if litellm_available E then LiteLLM model_id "LiteLLM"
      else OpenAIChat model_id
  end.

(** The world after more output, and the frame after more tools. *)
Definition logged (w : World) (evs : list Event) : World :=
  mkWorld (draws w) (stdout w ++ evs).

Definition extended (fr : ToolsFrame) (ts : list Tool) : ToolsFrame :=
  mkFrame (tools fr ++ ts) (self_mcp_tools fr).

(** What [__init__] leaves in [self] and in the world when it returns:
    each attribute, as the constructor's arguments and the machine
    determine it. *)
Record Constructed (E : Env) (model_name_arg : string)
    (use_memory_arg use_storage_arg use_mcp_arg : bool)
    (mcp_servers_arg : option (list Server))
    (w : World) (self : SecurityAgentSystem) (w' : World) : Prop := {
  built_model_name : model_name self = model_name_arg;
  built_model : model self = resolved E model_name_arg;
  built_use_memory : use_memory self = use_memory_arg;
  built_use_storage : use_storage self = use_storage_arg;
  built_use_mcp : use_mcp self = use_mcp_arg;
  built_mcp_servers : Agent.mcp_servers self = default [] mcp_servers_arg;
  built_base_tools : base_tools self = [DuckDuckGoTools; FileTools "." true false];
  built_all_tools :
    all_tools self
    = (builtin_tools E (base_tools self)
       ++ (if use_mcp_arg then external_tools E (default [] mcp_servers_arg)
           else []))%list;
  built_mcp_tools :
    mcp_tools self
    = (if use_mcp_arg then bridge_of E (default [] mcp_servers_arg) else None);
  built_storage_db :
    storage_db self
    = (if use_storage_arg then Some (mkSqliteDb (storage_path E)) else None);
  built_memory_db :
    memory_db self
    = (if use_memory_arg then Some (mkSqliteDb (memory_path E)) else None);
  built_agents :
    agents self
    = _create_all_agents E (model self) (all_tools self)
        (storage_db self) (memory_db self);
  built_session_id : session_id self = uuid4 E (draws w);
  built_members : members (security_team self) = team_members (agents self);
  built_world :
    w' = mkWorld (S (draws w))
           (stdout w ++ (if use_mcp_arg
                         then warnings E (default [] mcp_servers_arg) else []));
  built_stores : stores_open E use_memory_arg use_storage_arg = true;
}.

(** The names of the roster, in team order. *)
Definition roster_names : list string :=
  [ "Android SAST Specialist"; "Blue Team Defender"; "Bug Bounty Hunter";
    "Security Developer"; "DFIR Investigator"; "Email Security Analyst";
    "Memory Forensics Expert"; "Network Security Analyst"; "Red Team Operator";
    "Replay Attack Specialist"; "Security Reporter"; "Vulnerability Validator";
    "Reverse Engineer"; "RF Security Expert"; "WiFi Security Tester";
    "Source Code Analyzer" ].

(** The keys of the table of [get_agent]. *)
Definition agent_keys : list string :=
  [ "android"; "blue_team"; "bug_bounty"; "coding"; "dfir"; "email"; "memory";
    "network"; "red_team"; "replay"; "reporting"; "triage"; "reverse_engineering";
    "rf"; "wifi"; "source_code"; "sast" ].

(** The three toggles of the shell. *)
Inductive Toggle := TMemory | TStorage | TMcp.

Definition toggle_command (t : Toggle) : string :=
  match t with
  | TMemory => "/memory"
  | TStorage => "/storage"
  | TMcp => "/mcp"
  end.

Definition flip (t : Toggle) (l : crossbow_cli.Locals) : crossbow_cli.Locals :=
  match t with
  | TMemory => crossbow_cli.set_memory_enabled (negb (crossbow_cli.memory_enabled l)) l
  | TStorage => crossbow_cli.set_storage_enabled (negb (crossbow_cli.storage_enabled l)) l
  | TMcp => crossbow_cli.set_mcp_enabled (negb (crossbow_cli.mcp_enabled l)) l
  end.

(** The constructor call the shell makes from its locals. *)
Definition rebuild (E : Env) (l : crossbow_cli.Locals) : M World SecurityAgentSystem :=
  __init__ E (crossbow_cli.current_model l) (crossbow_cli.memory_enabled l)
    (crossbow_cli.storage_enabled l) (crossbow_cli.mcp_enabled l)
    (Some (crossbow_cli.mcp_servers l)).

End Spec.

(** ** A machine to run the code on *)

Module Scenario.

Import Agent.

Definition some_prompts : Prompts :=
  {| ANDROID_SAST_AGENT_PROMPT := "android";
     BLUETEAM_AGENT_PROMPT := "blue team";
     BUG_BOUNTY_AGENT_PROMPT := "bug bounty";
     CODE_AGENT := "code";
     DFIR_AGENT_PROMPT := "dfir";
     EMAIL_SPOOF_AGENT_PROMPT := "email spoof";
     MEMPORY_ANALYSIS_PROMPT := "memory analysis";
     NETWORK_ANALYSER_PROMPT := "network";
     RED_TEAM_AGENT_PROMPT := "red team";
     REPlAY_ATTACK_AGENT_PROMPT := "replay";
     REPORTING_AGENT_PROMPT := "reporting";
     TRIAGER_AGENT_PROMPT := "triage";
     REVERSE_ENGINEERING_AGENT_PROMPT := "reverse engineering";
     SUBGHZ_AGENT_PROMPT := "subghz";
     WIFI_SECURITY_AGENT_PROMPT := "wifi";
     SOURCE_CODE_ANALYZER_AGENT_PROMPT := "source code";
     THOUGHT_ROUTER_MANAGER_AGENT_PROMPT := "router" |}.

(** A machine on which the constructors named in the three lists raise
    and every other call goes through. *)
Definition machine (litellm : bool) (bad_commands : list (list string))
    (bad_urls : list string) (bad_db_files : list string) : Env :=
  {| lower := ascii_lower;
     litellm_available := litellm;
     MultiMCPTools_raises := λ commands,
       if bool_decide (commands ∈ bad_commands)
       then Some (mkExc OtherException "cannot start server") else None;
     MCPTools_raises := λ url _,
       if bool_decide (url ∈ bad_urls)
       then Some (mkExc OtherException "cannot reach server") else None;
     SqliteDb_raises := λ path,
       if bool_decide (path ∈ bad_db_files)
       then Some (mkExc OtherException "unable to open database file") else None;
     print_response_raises := λ _ _ _, None;
     uuid4 := λ n, "session-" ++ pretty n;
     SECURITY_TOOLS := ["execute_command"; "nmap_scan"];
     prompts := some_prompts;
     CROSSBOW_DIR := "/home/user/.crossbow" |}.

Definition healthy : Env := machine true [] [] [].

Definition boot : World := mkWorld 0 [].

Definition git_server : Server :=
  dict_of [("name", "Git Repository");
           ("command", "npx -y @modelcontextprotocol/server-git")].

Definition fetch_server : Server :=
  dict_of [("name", "Web Fetch");
           ("command", "npx -y @modelcontextprotocol/server-fetch")].

Definition docs_server : Server :=
  dict_of [("name", "Agno Docs"); ("url", "https://docs.agno.com/mcp");
           ("transport", "streamable-http")].

Definition down_server : Server :=
  dict_of [("name", "Down"); ("url", "https://down.example/mcp")].

Definition the_base_tools : list Tool := [DuckDuckGoTools; FileTools "." true false].

(** The git server cannot be started. *)
Definition bridge_down : Env :=
  machine true [["npx -y @modelcontextprotocol/server-git"]] [] [].

(** One of the two endpoints cannot be reached. *)
Definition endpoint_down : Env :=
  machine true [] ["https://down.example/mcp"] [].

(** The storage database cannot be opened. *)
Definition storage_locked : Env :=
  machine true [] [] ["/home/user/.crossbow/agent_storage.db"].

Definition unreachable : Exception := mkExc OtherException "cannot reach server".
Definition not_started : Exception := mkExc OtherException "cannot start server".
Definition not_opened : Exception :=
  mkExc OtherException "unable to open database file".

Definition no_answers : crossbow_cli.Answers :=
  {| crossbow_cli.add_mcp_server := None;
     crossbow_cli.get_model_input := "gpt-4o-mini" |}.

End Scenario.

(** ** The two entry points and the interactive helpers *)

Module Entry.

Import Agent crossbow_cli.

(** The truth value of [os.getenv(...)]: unset and empty are both
    false. *)
Definition is_set (value : option string) : bool :=
  match value with
  | Some v => bool_decide (v ≠ "")
  | None => false
  end.

Section AgentMain.

Variable E : Env.

Definition example_task : string :=
  NL ++ "    Analyze the security posture of a typical web application:"
  ++ NL ++ "    1. Identify common web vulnerabilities (OWASP Top 10)"
  ++ NL ++ "    2. Recommend security controls"
  ++ NL ++ "    3. Provide testing methodology"
  ++ NL ++ "    ".

(** [main] of [Agent.py], from the value of [OPENAI_API_KEY]. *)
Definition agent_main (OPENAI_API_KEY : option string) : M World unit :=
  emit (Print (NL ++ "🔒 Initializing Security Agent System..." ++ NL));;
  if negb (is_set OPENAI_API_KEY) then
    emit (Print "⚠️  ERROR: OPENAI_API_KEY not found!");;
    emit (Print (NL ++ "Please set your OpenAI API key:"));;
    emit (Print "1. Copy .env.example to .env");;
    emit (Print "2. Add your API key to the .env file");;
    emit (Print ("3. Get an API key from: https://platform.openai.com/api-keys" ++ NL));;
    ret tt
  else
    do system <- __init__ E "gpt-4o-mini" false false false None;
    run_assessment E system example_task true.

End AgentMain.

(** *** The helpers of [crossbow_cli.py] that talk to the user *)

(** [input(prompt).strip()]: the prompt is written, and the next line
    is taken from the lines still to be typed, which the state holds
    already stripped; with none left, [input] raises [EOFError]. *)
Definition input (prompt : string) : M (World * list string) string :=
  print prompt;;
  λ s, match s.2 with
       | line :: rest => (Ok line, (s.1, rest))
       | [] => (Raise (mkExc OtherException "EOF when reading a line"), s)
       end.

(** The dictionary [models] of [get_model_input]. *)
Definition models : gmap string string :=
  dict_of [ ("1", "gpt-4o-mini");
            ("2", "gpt-4o");
            ("3", "gpt-4-turbo");
            ("4", "o1-mini");
            ("5", "claude-sonnet-4-5");
            ("6", "claude-3-5-sonnet-20241022");
            ("7", "gemini-2.0-flash-exp");
            ("8", "gemini-1.5-pro") ].

Definition get_model_input : M (World * list string) string :=
  print (NL ++ "🤖 Available Models:");;
  print (NL ++ "  OpenAI:");;
  print "    1. gpt-4o-mini (Fast & Cheap) [Default]";;
  print "    2. gpt-4o (Most Capable)";;
  print "    3. gpt-4-turbo";;
  print "    4. o1-mini (Reasoning)";;
  print (NL ++ "  Anthropic:");;
  print "    5. claude-sonnet-4-5";;
  print "    6. claude-3-5-sonnet-20241022";;
  print (NL ++ "  Google:");;
  print "    7. gemini-2.0-flash-exp";;
  print "    8. gemini-1.5-pro";;
  print (NL ++ "    0. Enter custom model ID");;
  do choice <- input (NL ++ "📋 Select (0-8) or press Enter for default: ");
  if bool_decide (choice = "0") then
    do custom_model <- input "Enter custom model ID: ";
    ret (if bool_decide (custom_model ≠ "") then custom_model else "gpt-4o-mini")
  else
    ret (get_or models choice "gpt-4o-mini").

Section AddMcpServer.

Variable E : Env.

(** The end of [add_mcp_server]: the summary of [server_config], which
    is then returned. *)
Definition configured (server_config : Server) : M (World * list string) (option Server) :=
  do server_name <- getitem server_config "name";
  print (NL ++ "✓ MCP server configured: " ++ server_name);;
  (if bool_decide (is_Some (server_config !! "command")) then
     do command <- getitem server_config "command";
     print ("  Command: " ++ command)
   else
     do url <- getitem server_config "url";
     print ("  URL: " ++ url);;
     do transport <- getitem server_config "transport";
     print ("  Transport: " ++ transport));;
  ret (Some server_config).

Definition add_mcp_server : M (World * list string) (option Server) :=
  print (NL ++ "╔═══════════════════════════════════════════════════════════════╗");;
  print "║  Add Model Context Protocol (MCP) Server                     ║";;
  print "╚═══════════════════════════════════════════════════════════════╝";;
  print (NL ++ "Popular MCP Servers (Command-based):");;
  print "  1. Filesystem - Access local files and directories";;
  print "  2. Git - Read and search Git repositories";;
  print "  3. Memory - Knowledge graph-based persistent memory";;
  print "  4. Fetch - Web content fetching and conversion";;
  print "  5. Context7 - Library documentation access";;
  print (NL ++ "Remote MCP Servers (URL-based):");;
  print "  6. Custom URL - Connect to remote HTTP/SSE MCP server";;
  print (NL ++ "Custom:");;
  print "  0. Custom command or URL";;
  do choice <- input (NL ++ "📋 Select (0-6) or press Enter to cancel: ");
  if bool_decide (choice = "") then
    print "❌ Cancelled";; ret None
  else if bool_decide (choice = "1") then
    do typed <- input (NL ++ "📁 Enter directory path (default: current directory): ");
    let path := if bool_decide (typed = "") then "." else typed in
    configured
      (dict_of [ ("name", "Filesystem (" ++ path ++ ")");
                 ("command", "npx -y @modelcontextprotocol/server-filesystem " ++ path) ])
  else if bool_decide (choice = "2") then
    configured
      (dict_of [ ("name", "Git Repository");
                 ("command", "npx -y @modelcontextprotocol/server-git") ])
  else if bool_decide (choice = "3") then
    configured
      (dict_of [ ("name", "Memory Graph");
                 ("command", "npx -y @modelcontextprotocol/server-memory") ])
  else if bool_decide (choice = "4") then
    configured
      (dict_of [ ("name", "Web Fetch");
                 ("command", "npx -y @modelcontextprotocol/server-fetch") ])
  else if bool_decide (choice = "5") then
    configured
      (dict_of [ ("name", "Context7 Docs");
                 ("command", "npx -y @upstash/context7-mcp@latest") ])
  else if bool_decide (choice = "6") then
    do server_name <- input (NL ++ "📝 Server name: ");
    do url <- input "📝 Server URL (e.g., 'https://docs.agno.com/mcp'): ";
    if bool_decide (server_name = "") || bool_decide (url = "") then
      print "❌ Name and URL are required";; ret None
    else
      configured
        (dict_of [ ("name", server_name); ("url", url);
                   ("transport", "streamable-http") ])
  else if bool_decide (choice = "0") then
    do server_name <- input (NL ++ "📝 Server name: ");
    do typed <- input "📝 Type (command/url): ";
    let server_type := lower E typed in
    if bool_decide (server_name = "")
       || bool_decide (server_type ∉ ["command"; "url"]) then
      print "❌ Valid name and type (command/url) are required";; ret None
    else if bool_decide (server_type = "command") then
      do command <- input "📝 npx command (e.g., 'npx -y @example/mcp-server'): ";
      if bool_decide (command = "") then
        print "❌ Command is required";; ret None
      else
        configured (dict_of [ ("name", server_name); ("command", command) ])
    else
      do url <- input "📝 Server URL: ";
      if bool_decide (url = "") then
        print "❌ URL is required";; ret None
      else
        configured
          (dict_of [ ("name", server_name); ("url", url);
                     ("transport", "streamable-http") ])
  else
    print "❌ Invalid choice";; ret None.

End AddMcpServer.

(** *** [main] of [crossbow_cli.py] *)

Section CliMain.

Variable E : Env.

(** [args.model or os.getenv('LLM_MODEL_ID', '').strip() or "gpt-4o-mini"],
    with the environment variable given stripped. *)
Definition choose_model_id (args_model : option string) (LLM_MODEL_ID : string) : string :=
  if is_set args_model then default "" args_model
  else if bool_decide (LLM_MODEL_ID ≠ "") then LLM_MODEL_ID
  else "gpt-4o-mini".

(** [main] up to the loop; [None] is [sys.exit(1)]. *)
Definition main_setup (args_model : option string) (LLM_MODEL_ID : string)
    (args_memory args_storage args_mcp : bool) (OPENAI_API_KEY : option string)
  : M World (option Locals) :=
  let model_id := choose_model_id args_model LLM_MODEL_ID in
  if negb (is_set OPENAI_API_KEY) then
    emit (Print (NL ++ "⚠️  ERROR: OPENAI_API_KEY not found!"));;
    emit (Print (NL ++ "Please set your OpenAI API key:"));;
    emit (Print "  1. Copy .env.example to .env");;
    emit (Print "  2. Add your API key to the .env file");;
    emit (Print ("  3. Get an API key from: https://platform.openai.com/api-keys" ++ NL));;
    ret None
  else
    main_start E model_id args_memory args_storage args_mcp.

(** The [try] statement of the loop with both handlers.  A
    [KeyboardInterrupt] is no [Exception] and may arrive anywhere in the
    body: [interrupted] is the state the body had reached when one
    arrived, if one did; its handler says goodbye and ends the loop. *)
Definition loop_iteration (interrupted : option (World * Locals))
    (user_input : string) (answers : Answers) : M (World * Locals) Control :=
  match interrupted with
  | Some reached =>
      λ _, (print (NL ++ NL ++ "👋 Goodbye! Stay secure!");; ret Break) reached
  | None => loop_body E user_input answers
  end.

(** The iterations of [while True] for the lines of a script, each with
    the answers its helpers get; the loop stops at a [break]. *)
Fixpoint main_loop (script : list (string * Answers)) : M (World * Locals) unit :=
  match script with
  | [] => ret tt
  | (user_input, answers) :: rest =>
      do control <- loop_body E user_input answers;
      match control with
      | Break => ret tt
      | Continue => main_loop rest
      end
  end.

End CliMain.

End Entry.

(** States of the shell between two iterations. *)

Module Shell.

Import Agent Spec crossbow_cli.

(** The live system was built with the model and flags the locals
    show. *)
Definition in_sync (l : Locals) : Prop :=
  model_name (agent_system l) = current_model l
  ∧ use_memory (agent_system l) = memory_enabled l
  ∧ use_storage (agent_system l) = storage_enabled l
  ∧ use_mcp (agent_system l) = mcp_enabled l.

(** The live system holds the adapter, the stores and the capabilities
    that the locals ask for on machine [E]. *)
Definition up_to_date (E : Env) (l : Locals) : Prop :=
  model (agent_system l) = resolved E (current_model l)
  ∧ storage_db (agent_system l)
    = (if storage_enabled l then Some (mkSqliteDb (storage_path E)) else None)
  ∧ memory_db (agent_system l)
    = (if memory_enabled l then Some (mkSqliteDb (memory_path E)) else None)
  ∧ all_tools (agent_system l)
    = (builtin_tools E [DuckDuckGoTools; FileTools "." true false]
       ++ (if mcp_enabled l then external_tools E (mcp_servers l) else []))%list.

(** The session identifier of the live system is one of the draws made
    so far. *)
Definition session_drawn (E : Env) (w : World) (l : Locals) : Prop :=
  ∃ k, (k < draws w)%nat ∧ session_id (agent_system l) = uuid4 E k.

(** What one iteration does to the locals: nothing; or one more server
    in the list while MCP is off; or a rebuild, from changed locals [l0],
    whose system takes the place of the old one. *)
Inductive Outcome (E : Env) (w : World) (l : Locals) : World → Locals → Prop :=
| Kept w' :
    draws w' = draws w →
    Outcome E w l w' l
| Listed w' server :
    mcp_enabled l = false →
    draws w' = draws w →
    Outcome E w l w' (set_mcp_servers (mcp_servers l ++ [server]) l)
| Rebuilt l0 w0 self w1 w' :
    draws w0 = draws w →
    Constructed E (current_model l0) (memory_enabled l0) (storage_enabled l0)
      (mcp_enabled l0) (Some (mcp_servers l0)) w0 self w1 →
    draws w' = draws w1 →
    Outcome E w l w' (set_agent_system self l0).

(** The lines that end the loop. *)
Definition quits (E : Env) (user_input : string) : bool :=
  startswith user_input "/"
  && bool_decide (lower E user_input ∈ ["/quit"; "/exit"; "/q"]).

End Shell.

(** Views of the objects, for stating what the code keeps. *)

Module Views.

Import Agent Spec.

(** The [id] an adapter was built with. *)
Definition model_id_of (m : Model) : string :=
  match m with
  | Claude id | OpenAIChat id | Gemini id | LiteLLM id _ => id
  end.

(** The heading under which the menu of [get_model_input] prints a
    choice. *)
Definition advertised (choice : string) : option Provider :=
  if bool_decide (choice ∈ ["1"; "2"; "3"; "4"]) then Some OpenAI
  else if bool_decide (choice ∈ ["5"; "6"]) then Some Anthropic
  else if bool_decide (choice ∈ ["7"; "8"]) then Some Google
  else None.

(** A server configuration with a name and either a command or a URL
    with the streaming transport, each non-empty. *)
Definition well_formed (server_config : Server) : Prop :=
  (∃ server_name, server_config !! "name" = Some server_name ∧ server_name ≠ "")
  ∧ ((∃ command,
        server_config !! "command" = Some command ∧ command ≠ ""
        ∧ server_config !! "url" = None)
     ∨ (∃ url,
          server_config !! "url" = Some url ∧ url ≠ ""
          ∧ server_config !! "command" = None
          ∧ server_config !! "transport" = Some "streamable-http")).

(** The store whose opening fails first, if any: storage is opened
    before memory. *)
Definition store_failure (E : Env) (use_memory use_storage : bool) : option Exception :=
  match (if use_storage then SqliteDb_raises E (storage_path E) else None) with
  | Some e => Some e
  | None => if use_memory then SqliteDb_raises E (memory_path E) else None
  end.

End Views.

(** Lines, answers and servers to run the shell on. *)

Module Play.

Import Agent crossbow_cli Scenario.

(** The helper for [/add-mcp] answers with the git server. *)
Definition git_answers : Answers :=
  {| crossbow_cli.add_mcp_server := Some git_server;
     crossbow_cli.get_model_input := "claude-sonnet-4-5" |}.

Definition a_script : list (string * Answers) :=
  [ ("/memory", no_answers);
    ("/add-mcp", git_answers);
    ("/MCP", no_answers);
    ("list OWASP Top 10 categories", no_answers);
    ("/model", git_answers);
    ("/quit", no_answers);
    ("/storage", no_answers) ].

(** A spec with neither a command nor a URL. *)
Definition nameless_server : Server := dict_of [("name", "Notes")].

(** A spec with both a command and a URL. *)
Definition hybrid_server : Server :=
  dict_of [("name", "Hybrid");
           ("command", "npx -y @modelcontextprotocol/server-memory");
           ("url", "https://hybrid.example/mcp")].

End Play.

(** ** The model resolver *)

Import Agent Spec.

Section Resolver.

Context (E : Env).

Lemma names_Anthropic model_id :
  names E Anthropic model_id = str_in "claude" (lower E model_id).
Proof. unfold names; simpl. apply orb_false_r. Qed.

Lemma names_OpenAI model_id :
  names E OpenAI model_id =
    str_in "gpt" (lower E model_id) || str_in "o1" (lower E model_id)
    || str_in "o3" (lower E model_id).
Proof. unfold names; simpl. rewrite orb_false_r. apply orb_assoc. Qed.

Lemma names_Google model_id :
  names E Google model_id = str_in "gemini" (lower E model_id).
Proof. unfold names; simpl. apply orb_false_r. Qed.

(** The [else] branch: the import is tried, and only an [ImportError]
    leads to the default. *)
Lemma generic_or_default {S} model_id (st : S) :
  try_except_ImportError
    (import_LiteLLM E;; ret (LiteLLM model_id "LiteLLM"))
    (ret (OpenAIChat model_id)) st
  = (Ok (if litellm_available E then LiteLLM model_id "LiteLLM"
         else OpenAIChat model_id), st).
Proof.
  unfold try_except_ImportError, bind, import_LiteLLM.
  destruct (litellm_available E); reflexivity.
Qed.

(** The chain of tests of [_get_model] is a search through
    [providers]. *)
Lemma get_model_find {S} (model_id : string) (st : S) :
  _get_model E model_id st = (Ok (resolved E model_id), st).
Proof.
  unfold resolved, providers; cbn [List.find].
  rewrite names_Anthropic, names_OpenAI, names_Google.
  unfold _get_model.
  destruct (str_in "claude" (lower E model_id)); [reflexivity|].
  destruct (str_in "gpt" (lower E model_id) || str_in "o1" (lower E model_id)
            || str_in "o3" (lower E model_id)); [reflexivity|].
  destruct (str_in "gemini" (lower E model_id)); [reflexivity|].
  apply generic_or_default.
Qed.

(** An identifier that names one provider only gets that provider's
    adapter. *)
Lemma get_model_only_provider {S} (p : Provider) (model_id : string) (st : S) :
  names E p model_id = true →
  (∀ q, q ≠ p → names E q model_id = false) →
  _get_model E model_id st = (Ok (adapter p model_id), st).
Proof.
  intros Hp Hq. rewrite get_model_find.
  unfold resolved, providers; cbn [List.find].
  destruct p.
  - rewrite Hp. reflexivity.
  - rewrite (Hq Anthropic), Hp by discriminate. reflexivity.
  - rewrite (Hq Anthropic), (Hq OpenAI), Hp by discriminate. reflexivity.
Qed.

(** C2, as amended: [_get_model] returns, without raising and without
    touching the state, the adapter of the first provider -- in the
    order Anthropic, OpenAI, Google -- a fragment of which the lower-cased
    identifier contains; with no fragment at all it returns the generic
    LiteLLM adapter, or the OpenAI adapter when LiteLLM cannot be
    imported. *)
Theorem get_model_first_match {S} (model_id : string) (st : S) :
  _get_model E model_id st =
    (Ok match List.find (λ p, names E p model_id) providers with
        | Some p => adapter p model_id
        | None =>
            if litellm_available E then LiteLLM model_id "LiteLLM"
            else OpenAIChat model_id
        end, st).
Proof. apply get_model_find. Qed.

End Resolver.

(** C2, as stated, fails: ["gemini-o1"] contains the Google fragment
    ["gemini"], and [_get_model] answers with the OpenAI adapter, because
    ["o1"] is asked for first. *)
Lemma get_model_gemini_o1 :
  names Scenario.healthy Google "gemini-o1" = true
  ∧ _get_model Scenario.healthy "gemini-o1" Scenario.boot
    = (Ok (OpenAIChat "gemini-o1"), Scenario.boot)
  ∧ OpenAIChat "gemini-o1" ≠ adapter Google "gemini-o1".
Proof. split; [reflexivity|]. split; [reflexivity|]. discriminate. Qed.

(** ** The capability list *)

Section Capabilities.

Context (E : Env).

Lemma logged_nil w : logged w [] = w.
Proof. destruct w; unfold logged; simpl. by rewrite app_nil_r. Qed.

Lemma logged_logged w evs evs' : logged (logged w evs) evs' = logged w (evs ++ evs').
Proof. unfold logged; simpl. by rewrite <- app_assoc. Qed.

Lemma extended_nil fr : extended fr [] = fr.
Proof. destruct fr; unfold extended; simpl. by rewrite app_nil_r. Qed.

Lemma extended_extended fr ts ts' :
  extended (extended fr ts) ts' = extended fr (ts ++ ts').
Proof. unfold extended; simpl. by rewrite <- app_assoc. Qed.

(** The first loop sorts the specs into the two lists, in input
    order. *)
Lemma separate_from servers (commands : list string) (urls : list Server) :
  fold_left
    (λ (acc : list string * list Server) (server : Server),
       match server !! "command" with
       | Some command => ((acc.1 ++ [command])%list, acc.2)
       | None =>
           match server !! "url" with
           | Some _ => (acc.1, (acc.2 ++ [server])%list)
           | None => acc
           end
       end)
    servers (commands, urls)
  = ((commands ++ commands_of servers)%list, (urls ++ url_specs_of servers)%list).
Proof.
  revert commands urls.
  induction servers as [|server servers IH]; intros commands urls; simpl.
  - by rewrite !app_nil_r.
  - unfold url_based.
    destruct (server !! "command") as [command|] eqn:Hc; simpl.
    + rewrite IH. simpl. by rewrite <- app_assoc.
    + destruct (server !! "url") as [url|] eqn:Hu; simpl.
      * rewrite IH. simpl. by rewrite <- app_assoc.
      * by rewrite IH.
Qed.

Lemma separate_spec servers :
  separate servers = (commands_of servers, url_specs_of servers).
Proof. unfold separate. by rewrite separate_from. Qed.

(** One turn of the second loop never raises: it appends the
    capability or prints the warning. *)
Lemma attach_url_server_run server w fr :
  attach_url_server E server (w, fr)
  = (Ok tt, (logged w (option_list (warned E server)),
             extended fr (option_list (attached E server)))).
Proof.
  unfold attach_url_server, try_except, bind, getitem, new_MCPTools,
    warned, attached, transport_of.
  destruct (server !! "url") as [url|]; simpl.
  - destruct (MCPTools_raises E url _) as [e|]; simpl.
    + by rewrite extended_nil.
    + by rewrite logged_nil.
  - by rewrite extended_nil.
Qed.

Lemma attach_url_servers_run urls w fr :
  for_in urls (attach_url_server E) (w, fr)
  = (Ok tt, (logged w (omap (warned E) urls), extended fr (omap (attached E) urls))).
Proof.
  revert w fr. induction urls as [|server urls IH]; intros w fr; simpl.
  - by rewrite logged_nil, extended_nil.
  - unfold bind. rewrite attach_url_server_run, IH.
    rewrite logged_logged, extended_extended.
    by destruct (warned E server), (attached E server).
Qed.

(** The whole method, as one equation: it returns, and what it returns
    and prints is read off the specs. *)
Lemma initialize_tools_run (use_mcp : bool) servers base w :
  _initialize_tools E use_mcp servers base w
  = (Ok ((builtin_tools E base
           ++ (if use_mcp then external_tools E servers else []))%list,
         if use_mcp then bridge_of E servers else None),
     logged w (if use_mcp then warnings E servers else [])).
Proof.
  unfold _initialize_tools, builtin_tools.
  destruct use_mcp; simpl; [|by rewrite logged_nil, app_nil_r].
  case_bool_decide as Hs; simpl.
  - unfold initialize_mcp, try_except. rewrite separate_spec.
    unfold external_tools, bridge_of, warnings.
    destruct (commands_of servers) as [|command commands] eqn:Hc.
    + rewrite bool_decide_eq_false_2 by (intros H; by apply H).
      unfold bind at 1. unfold ret at 1.
      by rewrite attach_url_servers_run.
    + rewrite bool_decide_eq_true_2 by discriminate.
      unfold bind at 1. unfold bind at 1. unfold new_MultiMCPTools.
      destruct (MultiMCPTools_raises E (command :: commands)) as [e|]; simpl.
      * unfold logged; simpl. by rewrite app_nil_r.
      * unfold bind. simpl. rewrite attach_url_servers_run. simpl.
        f_equal. f_equal. by rewrite <- app_assoc.
  - subst servers. by rewrite logged_nil, app_nil_r.
Qed.

Lemma commands_of_app l1 l2 :
  commands_of (l1 ++ l2) = (commands_of l1 ++ commands_of l2)%list.
Proof. unfold commands_of. apply omap_app. Qed.

Lemma url_specs_of_app l1 l2 :
  url_specs_of (l1 ++ l2) = (url_specs_of l1 ++ url_specs_of l2)%list.
Proof. unfold url_specs_of. apply List.filter_app. Qed.

(** Leaving out a URL-based spec leaves the commands as they are. *)
Lemma commands_of_without (server : Server) l1 l2 :
  server !! "command" = None →
  commands_of (l1 ++ server :: l2) = commands_of (l1 ++ l2).
Proof.
  intros Hc. rewrite !commands_of_app. f_equal.
  unfold commands_of; simpl. by rewrite Hc.
Qed.

Lemma url_specs_of_with (server : Server) l1 l2 :
  url_based server = true →
  url_specs_of (l1 ++ server :: l2)
  = (url_specs_of l1 ++ server :: url_specs_of l2)%list.
Proof.
  intros Hu. rewrite url_specs_of_app. f_equal.
  unfold url_specs_of; simpl. by rewrite Hu.
Qed.

Lemma url_based_intro (server : Server) url :
  server !! "command" = None → server !! "url" = Some url →
  url_based server = true.
Proof.
  intros Hc Hu. unfold url_based. rewrite Hc, Hu.
  rewrite !bool_decide_eq_true_2; eauto.
Qed.

(** When every attachment goes through, the external part is the
    bridge, if there are commands, and then one capability for each
    URL-based spec. *)
Lemma external_tools_all_attached servers :
  bridge_ok E servers = true →
  Forall (λ server, is_Some (attached E server)) (url_specs_of servers) →
  external_tools E servers
  = (match commands_of servers with
     | [] => []
     | commands => [MultiMCPTools commands]
     end ++ map url_capability (url_specs_of servers))%list.
Proof.
  intros Hb Hall.
  assert (omap (attached E) (url_specs_of servers)
          = map url_capability (url_specs_of servers)) as Hmap.
  { induction Hall as [|server urls [t Ht] _ IH]; [done|].
    cbn [map]. rewrite <- IH. simpl. rewrite Ht. f_equal.
    unfold attached, url_capability, get_or in *.
    destruct (server !! "url") as [url|]; [|done].
    destruct (MCPTools_raises E url _); [done|]. by injection Ht as <-. }
  unfold external_tools, bridge_ok in *. rewrite Hmap.
  destruct (commands_of servers) as [|command commands]; [done|].
  apply bool_decide_eq_true_1 in Hb. by rewrite Hb.
Qed.

End Capabilities.

(** ** The constructor *)

Section Construction.

Context (E : Env).

(** Whether [__init__] returns is a matter of the two stores alone. *)
Lemma init_returns model_name (use_memory use_storage use_mcp : bool) servers w :
  stores_open E use_memory use_storage = true →
  ∃ self w',
    __init__ E model_name use_memory use_storage use_mcp servers w = (Ok self, w').
Proof.
  intros Hopen. unfold stores_open in Hopen.
  apply andb_true_iff in Hopen as [Hs Hm].
  unfold __init__, bind.
  rewrite get_model_find, initialize_tools_run.
  unfold new_SqliteDb, _create_security_team, uuid_uuid4, bind, ret.
  destruct use_storage, use_memory; simpl in Hs, Hm;
    try apply bool_decide_eq_true_1 in Hs;
    try apply bool_decide_eq_true_1 in Hm;
    rewrite ?Hs, ?Hm; eauto.
Qed.

(** A store that cannot be opened makes [__init__] raise, after the
    warnings of [_initialize_tools] and before any UUID is drawn. *)
Lemma init_raises model_name (use_memory use_storage use_mcp : bool) servers w :
  stores_open E use_memory use_storage = false →
  ∃ e,
    __init__ E model_name use_memory use_storage use_mcp servers w
    = (Raise e,
       logged w (if use_mcp then warnings E (default [] servers) else [])).
Proof.
  intros Hopen. unfold stores_open in Hopen.
  unfold __init__, bind.
  rewrite get_model_find, initialize_tools_run.
  unfold new_SqliteDb, _create_security_team, uuid_uuid4, bind, ret.
  destruct use_storage, use_memory; simpl in Hopen; try discriminate;
    destruct (SqliteDb_raises E (storage_path E)) as [es|];
    destruct (SqliteDb_raises E (memory_path E)) as [em|];
    simpl in Hopen; try discriminate; eauto.
Qed.

(** What a returned system holds. *)
Lemma init_built model_name (use_memory use_storage use_mcp : bool) servers w self w' :
  __init__ E model_name use_memory use_storage use_mcp servers w = (Ok self, w') →
  Constructed E model_name use_memory use_storage use_mcp servers w self w'.
Proof.
  unfold __init__, bind.
  rewrite get_model_find, initialize_tools_run.
  unfold new_SqliteDb, _create_security_team, uuid_uuid4, bind, ret, stores_open.
  destruct use_storage, use_memory;
    destruct (SqliteDb_raises E (storage_path E)) as [es|] eqn:Hs;
    destruct (SqliteDb_raises E (memory_path E)) as [em|] eqn:Hm;
    simpl; intros [= <- <-]; constructor; unfold stores_open; simpl;
    rewrite ?Hs, ?Hm; reflexivity.
Qed.

End Construction.

(** ** Properties of the capability list *)

Section CapabilityClaims.

Context (E : Env).

(** The URL-based specs that all attach give one capability each. *)
Lemma attached_all urls :
  Forall (λ server, is_Some (attached E server)) urls →
  omap (attached E) urls = map url_capability urls.
Proof.
  intros Hall. induction Hall as [|server urls [t Ht] _ IH]; [done|].
  cbn [map]. rewrite <- IH. simpl. rewrite Ht. f_equal.
  unfold attached, url_capability, get_or in *.
  destruct (server !! "url") as [url|]; [|done].
  destruct (MCPTools_raises E url _); [done|]. by injection Ht as <-.
Qed.

(** C8, as amended: the list [_initialize_tools] returns is the built-in
    capabilities and, when MCP is on, after them the single bridge over
    all commands, if any spec is command-based and building the bridge
    does not raise, and then the capabilities of the URL-based specs
    whose attachment does not raise, in input order -- one for each
    URL-based spec when none raises; with MCP off it is the built-in
    capabilities alone.  The list with URL-based specs in it and a
    bridge that raises is left out. *)
Theorem initialize_tools_order (use_mcp : bool) servers base w :
  (use_mcp = true → bridge_ok E servers = true ∨ url_specs_of servers = []) →
  (_initialize_tools E use_mcp servers base w).1
  = Ok ((map Function (SECURITY_TOOLS E) ++ base
          ++ (if use_mcp then
                match commands_of servers with
                | [] => []
                | commands =>
                    if bool_decide (MultiMCPTools_raises E commands = None)
                    then [MultiMCPTools commands] else []
                end ++ omap (attached E) (url_specs_of servers)
              else []))%list,
        if use_mcp then
          match commands_of servers with
          | [] => None
          | commands =>
              if bool_decide (MultiMCPTools_raises E commands = None)
              then Some (MultiMCPTools commands) else None
          end
        else None)
  ∧ (Forall (λ server, is_Some (attached E server)) (url_specs_of servers) →
     omap (attached E) (url_specs_of servers)
     = map url_capability (url_specs_of servers)).
Proof.
  intros Hbridge. split; [|apply attached_all].
  rewrite initialize_tools_run. unfold builtin_tools; cbn [fst].
  rewrite <- app_assoc.
  destruct use_mcp; [|done].
  specialize (Hbridge eq_refl).
  unfold external_tools, bridge_of, bridge_ok in *.
  destruct (commands_of servers) as [|command commands]; [done|].
  destruct (MultiMCPTools_raises E (command :: commands)) as [e|] eqn:Hraise.
  - rewrite bool_decide_eq_false_2 by done.
    destruct Hbridge as [Hok|Hnone].
    + by apply bool_decide_eq_true_1 in Hok.
    + by rewrite Hnone.
  - by rewrite bool_decide_eq_true_2.
Qed.

(** What the method does, on any server list, when building the
    combined bridge raises: the call stands in the outer [try], before
    the loop over [url_servers], so the outer handler prints its warning
    and the loop is never entered -- the URL-based specs, which the loop
    would attach one by one, each guarded by its own [try], are lost
    with the bridge.  The constructor goes on. *)
Lemma bridge_failure_leaves_builtins servers base w e :
  commands_of servers ≠ [] →
  MultiMCPTools_raises E (commands_of servers) = Some e →
  _initialize_tools E true servers base w
  = (Ok (builtin_tools E base, None), logged w [Print (warn_mcp_tools e)])
  ∧ ∀ model_name use_memory use_storage,
      stores_open E use_memory use_storage = true →
      ∃ self w',
        __init__ E model_name use_memory use_storage true (Some servers) w
        = (Ok self, w')
        ∧ all_tools self = builtin_tools E [DuckDuckGoTools; FileTools "." true false]
        ∧ mcp_tools self = None.
Proof.
  intros Hc He.
  assert (_initialize_tools E true servers base w
          = (Ok (builtin_tools E base, None), logged w [Print (warn_mcp_tools e)])) as Hrun.
  { rewrite initialize_tools_run. unfold external_tools, bridge_of, warnings.
    destruct (commands_of servers); [done|].
    rewrite He. by rewrite app_nil_r. }
  split; [done|].
  intros model_name use_memory use_storage Hopen.
  destruct (init_returns E model_name use_memory use_storage true (Some servers) w Hopen)
    as (self & w' & Hinit).
  exists self, w'. split; [done|].
  destruct (init_built E _ _ _ _ _ _ _ _ Hinit) as [].
  rewrite built_all_tools0, built_mcp_tools0, built_base_tools0. simpl.
  unfold external_tools, bridge_of.
  destruct (commands_of servers); [done|].
  rewrite He. by rewrite app_nil_r.
Qed.

(** C3: a URL-based spec whose attachment raises is skipped with a
    warning; the method returns the same capabilities and the same
    [self.mcp_tools] as for the list without that spec, and prints what
    it prints for that list with the one warning added in its place. *)
Theorem url_failure_is_skipped l1 (server : Server) l2 base w url e :
  server !! "command" = None →
  server !! "url" = Some url →
  MCPTools_raises E url (transport_of server) = Some e →
  bridge_ok E (l1 ++ server :: l2) = true →
  ∃ result pre post,
    _initialize_tools E true (l1 ++ l2) base w
    = (Ok result, logged w (pre ++ post))
    ∧ _initialize_tools E true (l1 ++ server :: l2) base w
      = (Ok result,
         logged w (pre ++ Print (warn_mcp_server (get_or server "name" "unknown") e)
                       :: post))
    ∧ result.1 = (builtin_tools E base ++ external_tools E (l1 ++ l2))%list.
Proof.
  intros Hc Hu He Hb.
  pose proof (url_based_intro _ _ Hc Hu) as Hurl.
  exists ((builtin_tools E base ++ external_tools E (l1 ++ l2))%list,
          bridge_of E (l1 ++ l2)),
         (omap (warned E) (url_specs_of l1)), (omap (warned E) (url_specs_of l2)).
  assert (attached E server = None) as Ha.
  { unfold attached. by rewrite Hu, He. }
  assert (warned E server
          = Some (Print (warn_mcp_server (get_or server "name" "unknown") e))) as Hw.
  { unfold warned. by rewrite Hu, He. }
  rewrite !initialize_tools_run.
  unfold external_tools, bridge_of, warnings, bridge_ok in *.
  rewrite (commands_of_without server l1 l2 Hc) in *.
  rewrite (url_specs_of_with server l1 l2 Hurl).
  rewrite url_specs_of_app, !omap_app. simpl. rewrite Ha, Hw.
  destruct (commands_of (l1 ++ l2)) as [|command commands]; [done|].
  apply bool_decide_eq_true_1 in Hb. by rewrite Hb.
Qed.

End CapabilityClaims.

(** ** Properties of a constructed system *)

Section SystemClaims.

Context (E : Env).

Lemma append_inj_prefix (p a b : string) : p ++ a = p ++ b → a = b.
Proof. induction p as [|c p IH]; simpl; [done|]. intros [= H]. by apply IH. Qed.

Lemma store_paths_differ : storage_path E ≠ memory_path E.
Proof. unfold storage_path, memory_path. intros H%append_inj_prefix. discriminate. Qed.

Lemma run_assessment_world self task stream w :
  (run_assessment E self task stream w).2
  = logged w [TeamPrintResponse task stream (session_id self)].
Proof.
  unfold run_assessment, print_response, bind, emit, modify. simpl.
  by destruct (print_response_raises E task stream (session_id self)).
Qed.

(** The sixteen agents are built with one and the same dictionary. *)
Lemma create_all_agents_kwargs m ts sdb mdb :
  Forall (λ a, kwargs a = agent_kwargs m ts sdb mdb)
    (team_members (_create_all_agents E m ts sdb mdb)).
Proof. unfold team_members, _create_all_agents; simpl. repeat constructor. Qed.

Lemma create_all_agents_roles m ts sdb mdb m' ts' sdb' mdb' :
  map (λ a, (name a, role a, instructions a))
    (team_members (_create_all_agents E m ts sdb mdb))
  = map (λ a, (name a, role a, instructions a))
      (team_members (_create_all_agents E m' ts' sdb' mdb')).
Proof. reflexivity. Qed.

Lemma create_all_agents_names m ts sdb mdb :
  map name (team_members (_create_all_agents E m ts sdb mdb)) = roster_names.
Proof. reflexivity. Qed.

Lemma agent_kwargs_model m ts sdb mdb :
  agent_kwargs m ts sdb mdb !! "model" = Some (VModel m).
Proof. destruct sdb, mdb; reflexivity. Qed.

Lemma agent_kwargs_tools m ts sdb mdb :
  agent_kwargs m ts sdb mdb !! "tools" = Some (VTools ts).
Proof. destruct sdb, mdb; reflexivity. Qed.

Lemma agent_kwargs_db m ts sdb mdb :
  agent_kwargs m ts sdb mdb !! "db"
  = VDb <$> match mdb with Some db => Some db | None => sdb end.
Proof. destruct sdb, mdb; reflexivity. Qed.

Lemma agent_kwargs_history m ts sdb mdb :
  agent_kwargs m ts sdb mdb !! "add_history_to_context"
  = match mdb, sdb with None, None => None | _, _ => Some (VBool true) end.
Proof. destruct sdb, mdb; reflexivity. Qed.

Lemma agent_kwargs_memories m ts sdb mdb :
  agent_kwargs m ts sdb mdb !! "enable_user_memories"
  = match mdb with Some _ => Some (VBool true) | None => None end.
Proof. destruct sdb, mdb; reflexivity. Qed.

Lemma members_kwargs model_name (use_memory use_storage use_mcp : bool) servers
    w self w' :
  __init__ E model_name use_memory use_storage use_mcp servers w = (Ok self, w') →
  Forall (λ a, kwargs a
               = agent_kwargs (model self) (all_tools self)
                   (storage_db self) (memory_db self))
    (members (security_team self)).
Proof.
  intros Hinit. destruct (init_built E _ _ _ _ _ _ _ _ Hinit) as [].
  rewrite built_members0, built_agents0. apply create_all_agents_kwargs.
Qed.

(** C4: storage and memory are switched on separately and each opens
    its own store, at its own path; with storage alone every specialist
    gets the storage store as ['db'] and history appending; with memory,
    alone or with storage, every specialist gets the memory store as
    ['db'], user memories and history appending. *)
Theorem persistence_wiring model_name (use_memory use_storage use_mcp : bool)
    servers w self w' :
  __init__ E model_name use_memory use_storage use_mcp servers w = (Ok self, w') →
  storage_db self = (if use_storage then Some (mkSqliteDb (storage_path E)) else None)
  ∧ memory_db self = (if use_memory then Some (mkSqliteDb (memory_path E)) else None)
  ∧ storage_path E ≠ memory_path E
  ∧ Forall
      (λ a,
         kwargs a !! "db"
         = (if use_memory then Some (VDb (mkSqliteDb (memory_path E)))
            else if use_storage then Some (VDb (mkSqliteDb (storage_path E)))
            else None)
         ∧ kwargs a !! "add_history_to_context"
           = (if use_memory || use_storage then Some (VBool true) else None)
         ∧ kwargs a !! "enable_user_memories"
           = (if use_memory then Some (VBool true) else None))
      (members (security_team self)).
Proof.
  intros Hinit. pose proof (members_kwargs _ _ _ _ _ _ _ _ Hinit) as Hkw.
  destruct (init_built E _ _ _ _ _ _ _ _ Hinit) as [].
  split; [done|]. split; [done|]. split; [apply store_paths_differ|].
  eapply Forall_impl; [exact Hkw|]. intros a ->.
  rewrite agent_kwargs_db, agent_kwargs_history, agent_kwargs_memories.
  rewrite built_storage_db0, built_memory_db0.
  by destruct use_memory, use_storage.
Qed.

(** C5: the constructor draws one UUID, the next of the process, and
    keeps it as [session_id]; every [run_assessment] on the instance
    hands that identifier to the team and draws none; a later
    construction, with the same arguments, takes a later draw, and the
    two identifiers differ as long as [uuid4] does not repeat itself. *)
Theorem session_id_once_per_instance model_name
    (use_memory use_storage use_mcp : bool) servers w self w' :
  __init__ E model_name use_memory use_storage use_mcp servers w = (Ok self, w') →
  session_id self = uuid4 E (draws w)
  ∧ draws w' = S (draws w)
  ∧ (∀ task stream w1,
       (run_assessment E self task stream w1).2
       = logged w1 [TeamPrintResponse task stream (session_id self)])
  ∧ (∀ w2 other w2',
       (draws w' ≤ draws w2)%nat →
       __init__ E model_name use_memory use_storage use_mcp servers w2
       = (Ok other, w2') →
       session_id other = uuid4 E (draws w2)
       ∧ (draws w < draws w2)%nat
       ∧ (Inj (=) (=) (uuid4 E) → session_id self ≠ session_id other)).
Proof.
  intros Hinit. destruct (init_built E _ _ _ _ _ _ _ _ Hinit) as [].
  assert (draws w' = S (draws w)) as Hd by (by subst w').
  split; [done|]. split; [done|]. split; [apply run_assessment_world|].
  intros w2 other w2' Hle Hinit2.
  destruct (init_built E _ _ _ _ _ _ _ _ Hinit2) as [].
  split; [done|]. split; [lia|].
  intros Hinj Heq. rewrite built_session_id0, built_session_id1 in Heq.
  apply Hinj in Heq. lia.
Qed.

(** C6: in a constructed system every specialist was given the
    system's one model adapter and the system's one capability list, and
    any two specialists have the same keyword dictionary. *)
Theorem specialists_share_model_and_tools model_name
    (use_memory use_storage use_mcp : bool) servers w self w' :
  __init__ E model_name use_memory use_storage use_mcp servers w = (Ok self, w') →
  Forall
    (λ a, kwargs a !! "model" = Some (VModel (model self))
          ∧ kwargs a !! "tools" = Some (VTools (all_tools self)))
    (members (security_team self))
  ∧ ∀ a b,
      a ∈ members (security_team self) → b ∈ members (security_team self) →
      kwargs a = kwargs b.
Proof.
  intros Hinit. pose proof (members_kwargs _ _ _ _ _ _ _ _ Hinit) as Hkw.
  split.
  - eapply Forall_impl; [exact Hkw|]. intros a ->.
    by rewrite agent_kwargs_model, agent_kwargs_tools.
  - rewrite Forall_forall in Hkw. intros a b Ha Hb.
    by rewrite (Hkw a Ha), (Hkw b Hb).
Qed.

(** C7: whatever the arguments, a constructed system has the same
    sixteen specialists, under the same names in the same order, all
    built with one keyword dictionary; a second construction, with any
    other arguments, has the same names, roles and instructions in the
    same order, and when only the memory and storage flags changed also
    the same model and capabilities. *)
Theorem roster_is_fixed model_name (use_memory use_storage use_mcp : bool)
    servers w self w' :
  __init__ E model_name use_memory use_storage use_mcp servers w = (Ok self, w') →
  map name (members (security_team self)) = roster_names
  ∧ length (members (security_team self)) = 16
  ∧ NoDup roster_names
  ∧ (∀ a b,
       a ∈ members (security_team self) → b ∈ members (security_team self) →
       kwargs a = kwargs b)
  ∧ ∀ model_name2 (use_memory2 use_storage2 use_mcp2 : bool) servers2 w2 other w2',
      __init__ E model_name2 use_memory2 use_storage2 use_mcp2 servers2 w2
      = (Ok other, w2') →
      map (λ a, (name a, role a, instructions a)) (members (security_team other))
      = map (λ a, (name a, role a, instructions a)) (members (security_team self))
      ∧ (model_name2 = model_name → use_mcp2 = use_mcp → servers2 = servers →
         model other = model self ∧ all_tools other = all_tools self).
Proof.
  intros Hinit. pose proof (members_kwargs _ _ _ _ _ _ _ _ Hinit) as Hkw.
  destruct (init_built E _ _ _ _ _ _ _ _ Hinit) as [].
  rewrite built_members0, built_agents0.
  split; [apply create_all_agents_names|]. split; [reflexivity|].
  split; [apply (bool_decide_unpack _); by vm_compute|].
  split.
  { rewrite <- built_agents0, <- built_members0.
    rewrite Forall_forall in Hkw. intros a b Ha Hb.
    by rewrite (Hkw a Ha), (Hkw b Hb). }
  intros model_name2 use_memory2 use_storage2 use_mcp2 servers2 w2 other w2' Hinit2.
  destruct (init_built E _ _ _ _ _ _ _ _ Hinit2) as [].
  rewrite built_members1, built_agents1.
  split; [apply create_all_agents_roles|].
  intros -> -> ->.
  by rewrite built_model0, built_model1, built_all_tools0, built_all_tools1,
    built_base_tools0, built_base_tools1.
Qed.

(** C10: [get_agent] looks the lower-cased argument up in a table of
    seventeen keys and never raises; outside the table it returns
    [None]; ['source_code'] and ['sast'] both give the Source Code
    Analyzer. *)
Theorem get_agent_lookup {S} self (agent_type : string) (st : S) :
  get_agent E self agent_type st
  = (Ok (agent_table self !! lower E agent_type), st)
  ∧ dom (agent_table self) = list_to_set agent_keys
  ∧ length agent_keys = 17
  ∧ NoDup agent_keys
  ∧ (lower E agent_type ∉ agent_keys →
     get_agent E self agent_type st = (Ok None, st))
  ∧ (lower E agent_type = "source_code" ∨ lower E agent_type = "sast" →
     get_agent E self agent_type st
     = (Ok (Some (source_code_analyzer_agent (agents self))), st)).
Proof.
  assert (dom (agent_table self) = list_to_set agent_keys) as Hdom.
  { unfold agent_table, dict_of, agent_keys; simpl.
    rewrite !dom_insert_L, dom_empty_L. set_solver. }
  split; [reflexivity|]. split; [exact Hdom|]. split; [reflexivity|].
  split; [apply (bool_decide_unpack _); by vm_compute|].
  split.
  - intros Hout. unfold get_agent, ret. do 2 f_equal.
    apply not_elem_of_dom. rewrite Hdom. by rewrite elem_of_list_to_set.
  - intros [H | H]; unfold get_agent, ret; rewrite H; reflexivity.
Qed.

End SystemClaims.

(** ** Properties of the shell *)

Section ShellClaims.

Import crossbow_cli.

Context (E : Env).

(** A rebuild that raises somewhere raises everywhere: a store does not
    open. *)
Lemma rebuild_raises_stores l w e :
  (rebuild E l w).1 = Raise e →
  stores_open E (memory_enabled l) (storage_enabled l) = false.
Proof.
  intros Hraise.
  destruct (stores_open E (memory_enabled l) (storage_enabled l)) eqn:Hopen; [|done].
  destruct (init_returns E (current_model l) _ _ (mcp_enabled l)
              (Some (mcp_servers l)) w Hopen) as (self & w' & Hinit).
  unfold rebuild in Hraise. rewrite Hinit in Hraise. discriminate.
Qed.

Lemma construct_raises l w :
  stores_open E (memory_enabled l) (storage_enabled l) = false →
  ∃ e w1,
    construct E (current_model l) (w, l) = (Raise e, (w1, l))
    ∧ draws w1 = draws w.
Proof.
  intros Hopen.
  destruct (init_raises E (current_model l) _ _ (mcp_enabled l)
              (Some (mcp_servers l)) w Hopen) as (e & Hinit).
  exists e. eexists. unfold construct, bind, gets, lift_fst. simpl.
  rewrite Hinit. split; reflexivity.
Qed.

Lemma flip_flip t l : flip t (flip t l) = l.
Proof. destruct t, l; simpl; unfold flip; simpl; by rewrite negb_involutive. Qed.

(** Runs the constructor call met in the goal, when a store does not
    open. *)
Ltac rebuild_raises Hopen :=
  match goal with
  | |- context [__init__ ?E' ?a ?b ?c ?d ?s ?w0] =>
      let e := fresh "e" in
      let He := fresh "He" in
      destruct (init_raises E' a b c d s w0 Hopen) as [e He]; rewrite He
  end.

(** Settles the tests [command in [...]] on a known command. *)
Ltac decide_commands :=
  repeat match goal with
    | |- context [bool_decide (?x ∈ ?l)] =>
        let b := eval vm_compute in (bool_decide (x ∈ l)) in
        change (bool_decide (x ∈ l)) with b; cbv iota
    end.

Lemma cmd_memory_rolls_back l w :
  stores_open E (negb (memory_enabled l)) (storage_enabled l) = false →
  ∃ w', cmd_memory E (w, l) = (Ok Continue, (w', l)) ∧ draws w' = draws w.
Proof.
  intros Hopen. cbn -[__init__ warnings String.append].
  unfold try_except, bind, construct, gets, lift_fst, ret.
  cbn -[__init__ warnings String.append].
  rebuild_raises Hopen.
  cbn -[warnings String.append]. eexists. split.
  - do 2 f_equal. destruct l; unfold set_memory_enabled; simpl.
    by rewrite negb_involutive.
  - reflexivity.
Qed.

Lemma cmd_storage_rolls_back l w :
  stores_open E (memory_enabled l) (negb (storage_enabled l)) = false →
  ∃ w', cmd_storage E (w, l) = (Ok Continue, (w', l)) ∧ draws w' = draws w.
Proof.
  intros Hopen. cbn -[__init__ warnings String.append].
  unfold try_except, bind, construct, gets, lift_fst, ret.
  cbn -[__init__ warnings String.append].
  rebuild_raises Hopen.
  cbn -[warnings String.append]. eexists. split.
  - do 2 f_equal. destruct l; unfold set_storage_enabled; simpl.
    by rewrite negb_involutive.
  - reflexivity.
Qed.

Lemma cmd_mcp_rolls_back l w :
  stores_open E (memory_enabled l) (storage_enabled l) = false →
  ∃ w', cmd_mcp E (w, l) = (Ok Continue, (w', l)) ∧ draws w' = draws w.
Proof.
  intros Hopen. cbn -[__init__ warnings String.append].
  unfold try_except, bind, construct, gets, lift_fst, ret.
  cbn -[__init__ warnings String.append].
  destruct (negb (mcp_enabled l) && bool_decide (mcp_servers l = []));
    cbn -[__init__ warnings String.append];
    rebuild_raises Hopen;
    cbn -[warnings String.append];
    (eexists; split;
     [do 2 f_equal; destruct l; unfold set_mcp_enabled; simpl;
      by rewrite negb_involutive
     |reflexivity]).
Qed.

(** When the rebuild returns, the flag stays flipped and the new
    instance takes the place of the old one. *)
Lemma cmd_memory_takes_effect l w :
  stores_open E (negb (memory_enabled l)) (storage_enabled l) = true →
  ∃ self w',
    cmd_memory E (w, l)
    = (Ok Continue, (w', set_agent_system self (flip TMemory l))).
Proof.
  intros Hopen. cbn -[__init__ warnings String.append].
  unfold try_except, bind, construct, gets, lift_fst, ret.
  cbn -[__init__ warnings String.append].
  match goal with
  | |- context [__init__ ?E' ?a ?b ?c ?d ?s ?w0] =>
      destruct (init_returns E' a b c d s w0 Hopen) as (self & w1 & Hinit);
      rewrite Hinit
  end.
  cbn -[String.append]. by eexists _, _.
Qed.

(** The shell starts whenever the stores it asks for open. *)
Lemma main_start_returns model_id (memory storage mcp : bool) w :
  stores_open E memory storage = true →
  ∃ self w',
    main_start E model_id memory storage mcp w
    = (Ok (Some (mkLocals model_id memory storage mcp [] self)), w').
Proof.
  intros Hopen.
  destruct (init_returns E model_id memory storage mcp (Some []) w Hopen)
    as (self & w' & Hinit).
  exists self. eexists. unfold main_start, try_except, bind at 1 2.
  rewrite Hinit. reflexivity.
Qed.

(** C9: when the line is one of the three toggle commands and the
    rebuild with the flipped flag raises, the iteration ends with every
    local of the loop as it was before -- the flipped flag is back at its
    old value and [agent_system] is still the old instance -- and the
    loop goes on. *)
Theorem failed_toggle_is_rolled_back (t : Toggle) user_input answers w l e :
  startswith user_input "/" = true →
  lower E user_input = toggle_command t →
  (rebuild E (flip t l) w).1 = Raise e →
  ∃ w',
    loop_body E user_input answers (w, l) = (Ok Continue, (w', l))
    ∧ draws w' = draws w.
Proof.
  intros Hslash Hcommand Hraise%rebuild_raises_stores.
  assert (user_input ≠ "") as Hne by (intros ->; discriminate).
  assert (∃ w', match t with
                | TMemory => cmd_memory E
                | TStorage => cmd_storage E
                | TMcp => cmd_mcp E
                end (w, l) = (Ok Continue, (w', l)) ∧ draws w' = draws w)
    as (w' & Hrun & Hdraws).
  { destruct t; simpl in Hraise;
      [apply cmd_memory_rolls_back | apply cmd_storage_rolls_back
      | apply cmd_mcp_rolls_back]; by destruct l. }
  exists w'. split; [|exact Hdraws].
  unfold loop_body, try_except.
  rewrite bool_decide_eq_false_2 by exact Hne.
  rewrite Hslash, Hcommand.
  destruct t; cbn [toggle_command]; decide_commands; by rewrite Hrun.
Qed.

End ShellClaims.

(** ** Runs on a machine *)

Import Scenario crossbow_cli.

Example get_model_gpt :
  _get_model healthy "GPT-4o" boot = (Ok (OpenAIChat "GPT-4o"), boot).
Proof. reflexivity. Qed.

Example get_model_claude_first :
  _get_model healthy "claude-vs-gpt" boot = (Ok (Claude "claude-vs-gpt"), boot).
Proof. reflexivity. Qed.

Example get_model_generic :
  _get_model healthy "mistral/mistral-large" boot
  = (Ok (LiteLLM "mistral/mistral-large" "LiteLLM"), boot).
Proof. reflexivity. Qed.

Example get_model_default :
  _get_model (machine false [] [] []) "mistral/mistral-large" boot
  = (Ok (OpenAIChat "mistral/mistral-large"), boot).
Proof. reflexivity. Qed.

Example initialize_tools_endpoint_down :
  _initialize_tools endpoint_down true
    [git_server; docs_server; fetch_server; down_server] the_base_tools boot
  = (Ok ([ Function "execute_command"; Function "nmap_scan";
           DuckDuckGoTools; FileTools "." true false;
           MultiMCPTools ["npx -y @modelcontextprotocol/server-git";
                          "npx -y @modelcontextprotocol/server-fetch"];
           MCPTools "https://docs.agno.com/mcp" "streamable-http" ],
         Some (MultiMCPTools ["npx -y @modelcontextprotocol/server-git";
                              "npx -y @modelcontextprotocol/server-fetch"])),
     mkWorld 0 [Print (warn_mcp_server "Down" unreachable)]).
Proof. by vm_compute. Qed.

Example initialize_tools_mcp_off :
  _initialize_tools endpoint_down false
    [git_server; docs_server; fetch_server; down_server] the_base_tools boot
  = (Ok ([ Function "execute_command"; Function "nmap_scan";
           DuckDuckGoTools; FileTools "." true false ], None),
     boot).
Proof. by vm_compute. Qed.

Example init_storage_locked :
  (__init__ storage_locked "gpt-4o-mini" false true false None boot).1
  = Raise not_opened.
Proof. by vm_compute. Qed.

(** C1: a failure while building the combined bridge is to cost the
    bridge only, every attachable URL-based spec still appearing; the
    code at the failing input: with the git server not starting, the
    docs endpoint, which attaches on this machine, is not in the list
    the method returns, which holds the built-in capabilities alone. *)
Theorem bridge_failure_loses_docs_server :
  MultiMCPTools_raises bridge_down (commands_of [git_server; docs_server])
  = Some not_started
  ∧ attached bridge_down docs_server
    = Some (MCPTools "https://docs.agno.com/mcp" "streamable-http")
  ∧ (_initialize_tools bridge_down true [git_server; docs_server] the_base_tools boot).1
    = Ok (builtin_tools bridge_down the_base_tools, None)
  ∧ MCPTools "https://docs.agno.com/mcp" "streamable-http"
    ∉ builtin_tools bridge_down the_base_tools.
Proof.
  split; [by vm_compute|]. split; [by vm_compute|]. split; [by vm_compute|].
  apply (bool_decide_unpack _). by vm_compute.
Qed.

Lemma bridge_failure_leaves_builtins_witness :
  commands_of [git_server; docs_server] ≠ []
  ∧ MultiMCPTools_raises bridge_down (commands_of [git_server; docs_server])
    = Some not_started
  ∧ _initialize_tools bridge_down true [git_server; docs_server] the_base_tools boot
    = (Ok (builtin_tools bridge_down the_base_tools, None),
       logged boot [Print (warn_mcp_tools not_started)])
  ∧ ∃ self w',
      __init__ bridge_down "gpt-4o-mini" true true true
        (Some [git_server; docs_server]) boot
      = (Ok self, w')
      ∧ all_tools self = builtin_tools bridge_down the_base_tools
      ∧ mcp_tools self = None.
Proof.
  assert (commands_of [git_server; docs_server] ≠ []) as Hc by (by vm_compute).
  assert (MultiMCPTools_raises bridge_down (commands_of [git_server; docs_server])
          = Some not_started) as He by (by vm_compute).
  split; [exact Hc|]. split; [exact He|].
  destruct (bridge_failure_leaves_builtins bridge_down
              [git_server; docs_server] the_base_tools boot not_started Hc He)
    as [Hrun Hinit].
  split; [exact Hrun|].
  apply (Hinit "gpt-4o-mini" true true). by vm_compute.
Defined.

Lemma url_failure_is_skipped_witness :
  down_server !! "command" = None
  ∧ down_server !! "url" = Some "https://down.example/mcp"
  ∧ MCPTools_raises endpoint_down "https://down.example/mcp" (transport_of down_server)
    = Some unreachable
  ∧ bridge_ok endpoint_down ([git_server; docs_server] ++ down_server :: [fetch_server])
    = true
  ∧ ∃ result pre post,
      _initialize_tools endpoint_down true ([git_server; docs_server] ++ [fetch_server])
        the_base_tools boot
      = (Ok result, logged boot (pre ++ post))
      ∧ _initialize_tools endpoint_down true
          ([git_server; docs_server] ++ down_server :: [fetch_server])
          the_base_tools boot
        = (Ok result,
           logged boot
             (pre ++ Print (warn_mcp_server (get_or down_server "name" "unknown")
                              unreachable) :: post))
      ∧ result.1
        = (builtin_tools endpoint_down the_base_tools
           ++ external_tools endpoint_down ([git_server; docs_server] ++ [fetch_server]))%list.
Proof.
  assert (down_server !! "command" = None) as Hc by (by vm_compute).
  assert (down_server !! "url" = Some "https://down.example/mcp") as Hu
    by (by vm_compute).
  assert (MCPTools_raises endpoint_down "https://down.example/mcp"
            (transport_of down_server) = Some unreachable) as He by (by vm_compute).
  assert (bridge_ok endpoint_down
            ([git_server; docs_server] ++ down_server :: [fetch_server]) = true)
    as Hb by (by vm_compute).
  split; [exact Hc|]. split; [exact Hu|]. split; [exact He|]. split; [exact Hb|].
  exact (url_failure_is_skipped endpoint_down [git_server; docs_server] down_server
           [fetch_server] the_base_tools boot _ _ Hc Hu He Hb).
Defined.

(** C8, as stated, fails: with MCP on and one of the two endpoints
    down, the list holds one capability for the two URL-based specs. *)
Lemma order_skips_failed_endpoint :
  url_specs_of [git_server; docs_server; fetch_server; down_server]
  = [docs_server; down_server]
  ∧ (_initialize_tools endpoint_down true
       [git_server; docs_server; fetch_server; down_server] the_base_tools boot).1
    = Ok ((builtin_tools endpoint_down the_base_tools
           ++ [ MultiMCPTools ["npx -y @modelcontextprotocol/server-git";
                               "npx -y @modelcontextprotocol/server-fetch"];
                MCPTools "https://docs.agno.com/mcp" "streamable-http" ])%list,
          Some (MultiMCPTools ["npx -y @modelcontextprotocol/server-git";
                               "npx -y @modelcontextprotocol/server-fetch"]))
  ∧ url_capability down_server
    ∉ (builtin_tools endpoint_down the_base_tools
       ++ [ MultiMCPTools ["npx -y @modelcontextprotocol/server-git";
                           "npx -y @modelcontextprotocol/server-fetch"];
            MCPTools "https://docs.agno.com/mcp" "streamable-http" ])%list.
Proof.
  split; [vm_compute; reflexivity|]. split; [vm_compute; reflexivity|].
  apply (bool_decide_unpack _). by vm_compute.
Qed.

Lemma initialize_tools_order_witness :
  (true = true →
   bridge_ok endpoint_down [git_server; docs_server; fetch_server; down_server]
   = true
   ∨ url_specs_of [git_server; docs_server; fetch_server; down_server] = [])
  ∧ (_initialize_tools endpoint_down true
       [git_server; docs_server; fetch_server; down_server] the_base_tools boot).1
    = Ok ((map Function (SECURITY_TOOLS endpoint_down) ++ the_base_tools
           ++ [MultiMCPTools (commands_of
                 [git_server; docs_server; fetch_server; down_server])]
           ++ omap (attached endpoint_down)
                (url_specs_of [git_server; docs_server; fetch_server; down_server]))%list,
          Some (MultiMCPTools (commands_of
                  [git_server; docs_server; fetch_server; down_server])))
  ∧ omap (attached endpoint_down)
      (url_specs_of [git_server; docs_server; fetch_server; down_server])
    = [MCPTools "https://docs.agno.com/mcp" "streamable-http"].
Proof.
  assert (true = true →
          bridge_ok endpoint_down
            [git_server; docs_server; fetch_server; down_server] = true
          ∨ url_specs_of [git_server; docs_server; fetch_server; down_server] = [])
    as Hb by (intros _; left; by vm_compute).
  split; [exact Hb|].
  split; [|by vm_compute].
  exact (proj1 (initialize_tools_order endpoint_down true
                  [git_server; docs_server; fetch_server; down_server]
                  the_base_tools boot Hb)).
Defined.

(** A system with memory and storage both on. *)
Lemma persistence_wiring_witness :
  ∃ self w',
    __init__ healthy "gpt-4o-mini" true true false None boot = (Ok self, w')
    ∧ storage_db self = Some (mkSqliteDb "/home/user/.crossbow/agent_storage.db")
    ∧ memory_db self = Some (mkSqliteDb "/home/user/.crossbow/crossbow_agents.db")
    ∧ Forall
        (λ a,
           kwargs a !! "db"
           = Some (VDb (mkSqliteDb "/home/user/.crossbow/crossbow_agents.db"))
           ∧ kwargs a !! "add_history_to_context" = Some (VBool true)
           ∧ kwargs a !! "enable_user_memories" = Some (VBool true))
        (members (security_team self)).
Proof.
  destruct (init_returns healthy "gpt-4o-mini" true true false None boot)
    as (self & w' & Hinit); [by vm_compute|].
  exists self, w'. split; [exact Hinit|].
  destruct (persistence_wiring healthy _ _ _ _ _ _ _ _ Hinit)
    as (Hs & Hm & _ & Hall).
  split; [exact Hs|]. split; [exact Hm|]. exact Hall.
Defined.

Lemma pretty_session_inj : Inj (=) (=) (uuid4 healthy).
Proof. intros m n H. simpl in H. injection H as H. by apply (inj pretty). Qed.

Lemma session_id_once_per_instance_witness :
  ∃ self w' other w'',
    __init__ healthy "gpt-4o-mini" false false false None boot = (Ok self, w')
    ∧ __init__ healthy "gpt-4o-mini" false false false None w' = (Ok other, w'')
    ∧ session_id self = "session-0"
    ∧ session_id other = "session-1"
    ∧ session_id self ≠ session_id other
    ∧ (run_assessment healthy self "list OWASP Top 10 categories" true w').2
      = logged w' [TeamPrintResponse "list OWASP Top 10 categories" true
                     (session_id self)].
Proof.
  destruct (init_returns healthy "gpt-4o-mini" false false false None boot)
    as (self & w' & Hinit); [by vm_compute|].
  destruct (init_returns healthy "gpt-4o-mini" false false false None w')
    as (other & w'' & Hinit2); [by vm_compute|].
  exists self, w', other, w''. split; [exact Hinit|]. split; [exact Hinit2|].
  destruct (session_id_once_per_instance healthy _ _ _ _ _ _ _ _ Hinit)
    as (Hsid & Hdraws & Hrun & Hnext).
  destruct (Hnext w' other w'' (le_n _) Hinit2) as (Hsid2 & _ & Hne).
  split; [exact Hsid|].
  split; [rewrite Hsid2, Hdraws; reflexivity|].
  split; [exact (Hne pretty_session_inj)|].
  apply Hrun.
Defined.

Lemma specialists_share_model_and_tools_witness :
  ∃ self w',
    __init__ healthy "claude-sonnet-4-5" true false true
      (Some [git_server; docs_server]) boot = (Ok self, w')
    ∧ Forall
        (λ a, kwargs a !! "model" = Some (VModel (model self))
              ∧ kwargs a !! "tools" = Some (VTools (all_tools self)))
        (members (security_team self)).
Proof.
  destruct (init_returns healthy "claude-sonnet-4-5" true false true
              (Some [git_server; docs_server]) boot)
    as (self & w' & Hinit); [by vm_compute|].
  exists self, w'. split; [exact Hinit|].
  exact (proj1 (specialists_share_model_and_tools healthy _ _ _ _ _ _ _ _ Hinit)).
Defined.

(** Memory on, then off: the roster stays. *)
Lemma roster_is_fixed_witness :
  ∃ self w' other w'',
    __init__ healthy "gpt-4o-mini" true false false None boot = (Ok self, w')
    ∧ __init__ healthy "gpt-4o-mini" false false false None w' = (Ok other, w'')
    ∧ map name (members (security_team self)) = roster_names
    ∧ length (members (security_team self)) = 16
    ∧ map (λ a, (name a, role a, instructions a)) (members (security_team other))
      = map (λ a, (name a, role a, instructions a)) (members (security_team self))
    ∧ model other = model self
    ∧ all_tools other = all_tools self.
Proof.
  destruct (init_returns healthy "gpt-4o-mini" true false false None boot)
    as (self & w' & Hinit); [by vm_compute|].
  destruct (init_returns healthy "gpt-4o-mini" false false false None w')
    as (other & w'' & Hinit2); [by vm_compute|].
  exists self, w', other, w''. split; [exact Hinit|]. split; [exact Hinit2|].
  destruct (roster_is_fixed healthy _ _ _ _ _ _ _ _ Hinit)
    as (Hnames & Hlen & _ & _ & Hother).
  destruct (Hother _ _ _ _ _ _ _ _ Hinit2) as (Hroles & Hsame).
  destruct (Hsame eq_refl eq_refl eq_refl) as (Hmodel & Htools).
  split; [exact Hnames|]. split; [exact Hlen|]. split; [exact Hroles|].
  split; [exact Hmodel|exact Htools].
Defined.

Lemma get_agent_lookup_witness :
  ∃ self w',
    __init__ healthy "gpt-4o-mini" false false false None boot = (Ok self, w')
    ∧ (lower healthy "Nmap" ∉ agent_keys)
    ∧ get_agent healthy self "Nmap" w' = (Ok None, w')
    ∧ lower healthy "SAST" = "sast"
    ∧ get_agent healthy self "SAST" w'
      = (Ok (Some (source_code_analyzer_agent (agents self))), w')
    ∧ get_agent healthy self "source_code" w'
      = (Ok (Some (source_code_analyzer_agent (agents self))), w').
Proof.
  destruct (init_returns healthy "gpt-4o-mini" false false false None boot)
    as (self & w' & Hinit); [by vm_compute|].
  exists self, w'. split; [exact Hinit|].
  assert (lower healthy "Nmap" ∉ agent_keys) as Hout.
  { apply (bool_decide_unpack _). by vm_compute. }
  split; [exact Hout|].
  split; [exact (proj1 (proj2 (proj2 (proj2 (proj2
            (get_agent_lookup healthy self "Nmap" w'))))) Hout)|].
  split; [reflexivity|].
  split.
  - exact (proj2 (proj2 (proj2 (proj2 (proj2
             (get_agent_lookup healthy self "SAST" w')))))
             (or_intror eq_refl)).
  - exact (proj2 (proj2 (proj2 (proj2 (proj2
             (get_agent_lookup healthy self "source_code" w')))))
             (or_introl eq_refl)).
Defined.

(** A shell started with storage on; the storage database then gets
    locked, and [/MCP] is typed. *)
Lemma failed_toggle_is_rolled_back_witness :
  ∃ l w,
    main_start healthy "gpt-4o-mini" false true false boot = (Ok (Some l), w)
    ∧ startswith "/MCP" "/" = true
    ∧ lower storage_locked "/MCP" = toggle_command TMcp
    ∧ (rebuild storage_locked (flip TMcp l) w).1 = Raise not_opened
    ∧ ∃ w',
        loop_body storage_locked "/MCP" no_answers (w, l) = (Ok Continue, (w', l))
        ∧ draws w' = draws w.
Proof.
  destruct (main_start_returns healthy "gpt-4o-mini" false true false boot)
    as (self & w & Hstart); [by vm_compute|].
  eexists _, _. split; [exact Hstart|].
  assert (lower storage_locked "/MCP" = toggle_command TMcp) as Hcommand
    by reflexivity.
  split; [reflexivity|]. split; [exact Hcommand|].
  match goal with
  | |- (rebuild ?E' ?l' ?w0).1 = ?r ∧ _ =>
      assert ((rebuild E' l' w0).1 = r) as Hraise by (by vm_compute)
  end.
  split; [exact Hraise|].
  exact (failed_toggle_is_rolled_back storage_locked TMcp "/MCP" no_answers
           _ _ not_opened eq_refl Hcommand Hraise).
Defined.

(** ** One iteration of the shell, whatever the line *)

Import Shell Entry Views.

(** Splits on the constructor call met in the goal. *)
Ltac rebuild_cases self e w1 Hinit :=
  match goal with
  | |- context [__init__ ?E' ?a ?b ?c ?d ?s ?w0] =>
      destruct (__init__ E' a b c d s w0) as [[self|e] w1] eqn:Hinit
  end.

Ltac run_shell :=
  unfold try_except, bind, construct, gets, lift_fst, ret, assign, modify,
    print, clear_screen, print_banner, print_status, say, emit;
  cbn -[__init__ warnings String.append].

(** Brings the locals reached after a caught failure back to [l]. *)
Ltac locals_kept l :=
  match goal with
  | |- Outcome _ _ _ _ ?L =>
      replace L with l
        by (destruct l; cbn; rewrite ?negb_involutive, ?removelast_last; done)
  end.

(** Names the facts a constructed system comes with. *)
Ltac unpack_built Hbuilt :=
  destruct Hbuilt as [Bname Bmodel Bmem Bsto Bmcp Bservers Bbase Btools Bbridge
                        Bsdb Bmdb Bagents Bsid Bmembers Bworld Bstores].

(** Settles the tests on the command once the command is known. *)
Ltac settle_commands :=
  repeat match goal with
    | |- context [bool_decide (?x ∈ ?l)] =>
        let b := eval vm_compute in (bool_decide (x ∈ l)) in
        change (bool_decide (x ∈ l)) with b; cbv iota
    end.

Section ShellSteps.

Context (E : Env).

(** A raising constructor has drawn no UUID: a store did not open. *)
Lemma init_raise_world model_name (use_memory use_storage use_mcp : bool)
    servers w e w1 :
  __init__ E model_name use_memory use_storage use_mcp servers w = (Raise e, w1) →
  draws w1 = draws w ∧ stores_open E use_memory use_storage = false.
Proof.
  intros Hinit.
  destruct (stores_open E use_memory use_storage) eqn:Hopen.
  - destruct (init_returns E model_name _ _ use_mcp servers w Hopen)
      as (self & w' & Hok).
    rewrite Hok in Hinit. discriminate.
  - destruct (init_raises E model_name _ _ use_mcp servers w Hopen) as (e' & Hraise).
    rewrite Hraise in Hinit. injection Hinit as _ <-. done.
Qed.

Lemma cmd_memory_outcome l w :
  ∃ w' l', cmd_memory E (w, l) = (Ok Continue, (w', l')) ∧ Outcome E w l w' l'.
Proof.
  cbn -[__init__ warnings String.append]. run_shell.
  rebuild_cases self e w1 Hinit; run_shell; eexists _, _; (split; [reflexivity|]).
  - apply init_built in Hinit.
    by eapply (Rebuilt E w l (flip TMemory l)); [|exact Hinit|].
  - apply init_raise_world in Hinit as [Hd _].
    locals_kept l. by apply Kept.
Qed.

Lemma cmd_storage_outcome l w :
  ∃ w' l', cmd_storage E (w, l) = (Ok Continue, (w', l')) ∧ Outcome E w l w' l'.
Proof.
  cbn -[__init__ warnings String.append]. run_shell.
  rebuild_cases self e w1 Hinit; run_shell; eexists _, _; (split; [reflexivity|]).
  - apply init_built in Hinit.
    by eapply (Rebuilt E w l (flip TStorage l)); [|exact Hinit|].
  - apply init_raise_world in Hinit as [Hd _].
    locals_kept l. by apply Kept.
Qed.

Lemma cmd_mcp_outcome l w :
  ∃ w' l', cmd_mcp E (w, l) = (Ok Continue, (w', l')) ∧ Outcome E w l w' l'.
Proof.
  cbn -[__init__ warnings String.append]. run_shell.
  destruct (negb (mcp_enabled l) && bool_decide (mcp_servers l = []));
    run_shell;
    (rebuild_cases self e w1 Hinit; run_shell; eexists _, _;
     (split; [reflexivity|]);
     [ apply init_built in Hinit;
       by eapply (Rebuilt E w l (flip TMcp l)); [|exact Hinit|]
     | apply init_raise_world in Hinit as [Hd _];
       locals_kept l; by apply Kept ]).
Qed.

Lemma cmd_add_mcp_outcome new_server l w :
  ∃ w' l',
    cmd_add_mcp E new_server (w, l) = (Ok Continue, (w', l')) ∧ Outcome E w l w' l'.
Proof.
  unfold cmd_add_mcp.
  destruct new_server as [server|]; [|by eexists _, _; split; [|apply Kept]].
  case_bool_decide; [|by eexists _, _; split; [|apply Kept]].
  cbn -[__init__ warnings String.append]. run_shell.
  destruct (mcp_enabled l) eqn:Hmcp; run_shell.
  - rebuild_cases self e w1 Hinit; run_shell; eexists _, _; (split; [reflexivity|]).
    + apply init_built in Hinit.
      eapply (Rebuilt E w l (set_mcp_servers (mcp_servers l ++ [server]) l));
        [|exact Hinit|]; done.
    + apply init_raise_world in Hinit as [Hd _].
      locals_kept l. by apply Kept.
  - eexists _, _. split; [reflexivity|]. by apply Listed.
Qed.

Lemma cmd_model_outcome new_model l w :
  ∃ w' l',
    cmd_model E new_model (w, l) = (Ok Continue, (w', l')) ∧ Outcome E w l w' l'.
Proof.
  unfold cmd_model. run_shell.
  case_bool_decide; run_shell; [|by eexists _, _; split; [|apply Kept]].
  rebuild_cases self e w1 Hinit; run_shell; eexists _, _; (split; [reflexivity|]).
  - apply init_built in Hinit.
    by eapply (Rebuilt E w l (set_current_model new_model l)); [|exact Hinit|].
  - apply init_raise_world in Hinit as [Hd _]. by apply Kept.
Qed.

(** A task: the line goes to the team with the session of the live
    system, and a failure of the team is caught. *)
Lemma query_outcome user_input l w :
  ∃ w',
    try_except
      (print "";;
       do sys <- gets (λ s : World * Locals, agent_system s.2);
       lift_fst (run_assessment E sys user_input true);;
       ret Continue)
      (λ e,
         print (NL ++ "✗ Error: " ++ exc_msg e);;
         print "Please try again or type /help for assistance.";;
         ret Continue) (w, l)
    = (Ok Continue, (w', l))
    ∧ draws w' = draws w
    ∧ TeamPrintResponse user_input true (session_id (agent_system l)) ∈ stdout w'.
Proof.
  unfold run_assessment, print_response. run_shell.
  destruct (print_response_raises E user_input true (session_id (agent_system l)));
    run_shell; eexists; (split; [reflexivity|]); (split; [reflexivity|]);
    cbn; rewrite !elem_of_app, !list_elem_of_singleton; eauto 10.
Qed.

(** Every iteration returns: it ends the loop on a quit command and
    goes on otherwise, and it leaves the locals in one of the three ways
    of [Outcome]. *)
Lemma loop_body_outcome user_input answers l w :
  ∃ w' l',
    loop_body E user_input answers (w, l)
    = (Ok (if quits E user_input then Break else Continue), (w', l'))
    ∧ Outcome E w l w' l'.
Proof.
  unfold loop_body, quits.
  case_bool_decide as Hempty.
  { subst user_input. cbn. eexists _, _. split; [reflexivity|]. by apply Kept. }
  destruct (startswith user_input "/") eqn:Hslash; cbn [andb].
  - unfold try_except at 1.
    case_bool_decide as Hquit.
    { run_shell. eexists _, _. split; [reflexivity|]. by apply Kept. }
    case_bool_decide as Hhelp.
    { run_shell. eexists _, _. split; [reflexivity|]. by apply Kept. }
    case_bool_decide as Hclear.
    { run_shell. eexists _, _. split; [reflexivity|]. by apply Kept. }
    case_bool_decide as Hstatus.
    { run_shell. eexists _, _. split; [reflexivity|]. by apply Kept. }
    case_bool_decide as Hmemory.
    { destruct (cmd_memory_outcome l w) as (w' & l' & -> & Hout). eauto. }
    case_bool_decide as Hstorage.
    { destruct (cmd_storage_outcome l w) as (w' & l' & -> & Hout). eauto. }
    case_bool_decide as Hmcp.
    { destruct (cmd_mcp_outcome l w) as (w' & l' & -> & Hout). eauto. }
    case_bool_decide as Hadd.
    { destruct (cmd_add_mcp_outcome (crossbow_cli.add_mcp_server answers) l w)
        as (w' & l' & -> & Hout). eauto. }
    case_bool_decide as Hmodel.
    { destruct (cmd_model_outcome (crossbow_cli.get_model_input answers) l w)
        as (w' & l' & -> & Hout). eauto. }
    run_shell. eexists _, _. split; [reflexivity|]. by apply Kept.
  - destruct (query_outcome user_input l w) as (w' & -> & Hd & _).
    eexists _, _. split; [reflexivity|]. by apply Kept.
Qed.


Lemma outcome_in_sync w l w' l' :
  Outcome E w l w' l' → in_sync l → in_sync l'.
Proof.
  intros [w1 Hd | w1 server _ Hd | l0 w0 self w1 w2 Hd0 Hbuilt Hd] Hsync;
    [done | by destruct l |].
  unpack_built Hbuilt. by destruct l0.
Qed.

Lemma outcome_up_to_date w l w' l' :
  Outcome E w l w' l' → up_to_date E l → up_to_date E l'.
Proof.
  intros [w1 Hd | w1 server Hoff Hd | l0 w0 self w1 w2 Hd0 Hbuilt Hd] Hup; [done| |].
  - destruct l; cbn in *. subst. exact Hup.
  - unpack_built Hbuilt. destruct l0; cbn in *. unfold up_to_date; cbn.
    by rewrite Bmodel, Bsdb, Bmdb, Btools, Bbase.
Qed.

Lemma outcome_session w l w' l' :
  Outcome E w l w' l' →
  session_drawn E w l →
  session_drawn E w' l'
  ∧ (agent_system l' = agent_system l ∧ draws w' = draws w
     ∨ session_id (agent_system l') = uuid4 E (draws w)
       ∧ draws w' = S (draws w)).
Proof.
  intros [w1 Hd | w1 server _ Hd | l0 w0 self w1 w2 Hd0 Hbuilt Hd] (k & Hk & Hsid).
  - split; [exists k; split; [lia|done] | by left].
  - split; [exists k; split; [lia|by destruct l] | left; by destruct l].
  - unpack_built Hbuilt. subst w1. cbn in Hd.
    assert (session_id (agent_system (set_agent_system self l0))
            = uuid4 E (draws w)) as Hnew
      by (destruct l0; cbn; congruence).
    split; [exists (draws w); split; [lia|done] | right; split; [done|lia]].
Qed.

(** The state [main] enters the loop with. *)
Lemma main_start_built model_id (memory storage mcp : bool) w l w1 :
  main_start E model_id memory storage mcp w = (Ok (Some l), w1) →
  ∃ self w0,
    l = mkLocals model_id memory storage mcp [] self
    ∧ Constructed E model_id memory storage mcp (Some []) w self w0
    ∧ draws w1 = draws w0.
Proof.
  unfold main_start, try_except, bind at 1 2.
  destruct (__init__ E model_id memory storage mcp (Some []) w)
    as [[self|e] w0] eqn:Hinit; cbn; [|discriminate].
  intros [= <- <-]. exists self, w0. by apply init_built in Hinit.
Qed.

Lemma main_start_invariants model_id (memory storage mcp : bool) w l w1 :
  main_start E model_id memory storage mcp w = (Ok (Some l), w1) →
  in_sync l ∧ up_to_date E l ∧ session_drawn E w1 l.
Proof.
  intros (self & w0 & -> & Hbuilt & Hd)%main_start_built.
  unpack_built Hbuilt.
  split; [done|]. split.
  - unfold up_to_date; cbn.
    rewrite Bmodel, Bsdb, Bmdb, Btools, Bbase. cbn.
    by destruct mcp.
  - exists (draws w). subst w0. cbn in Hd. split; [lia|done].
Qed.

(** What every iteration keeps, the whole script keeps. *)
Lemma main_loop_keeps (P : World → Locals → Prop) :
  (∀ w l w' l', Outcome E w l w' l' → P w l → P w' l') →
  ∀ script w l,
    P w l →
    ∃ w' l', main_loop E script (w, l) = (Ok tt, (w', l')) ∧ P w' l'.
Proof.
  intros Hkeep script.
  induction script as [|[user_input answers] script IH]; intros w l HP.
  - by exists w, l.
  - cbn [main_loop]. unfold bind.
    destruct (loop_body_outcome user_input answers l w) as (w1 & l1 & -> & Hout).
    pose proof (Hkeep _ _ _ _ Hout HP) as HP1.
    destruct (quits E user_input); [by exists w1, l1|].
    by apply IH.
Qed.

(** A task, with the error line when the team raises. *)
Lemma query_reported user_input l w :
  ∃ w',
    try_except
      (print "";;
       do sys <- gets (λ s : World * Locals, agent_system s.2);
       lift_fst (run_assessment E sys user_input true);;
       ret Continue)
      (λ e,
         print (NL ++ "✗ Error: " ++ exc_msg e);;
         print "Please try again or type /help for assistance.";;
         ret Continue) (w, l)
    = (Ok Continue, (w', l))
    ∧ draws w' = draws w
    ∧ TeamPrintResponse user_input true (session_id (agent_system l)) ∈ stdout w'
    ∧ ∀ e,
        print_response_raises E user_input true (session_id (agent_system l))
        = Some e →
        Print (NL ++ "✗ Error: " ++ exc_msg e) ∈ stdout w'.
Proof.
  unfold run_assessment, print_response. run_shell.
  destruct (print_response_raises E user_input true (session_id (agent_system l)))
    as [e|];
    run_shell; eexists; (split; [reflexivity|]); (split; [reflexivity|]);
    (split; [cbn; rewrite !elem_of_app, !list_elem_of_singleton; eauto 10|]).
  - intros e' [= <-]. cbn. rewrite !elem_of_app, !list_elem_of_singleton. eauto 10.
  - discriminate.
Qed.


(** X2: on a machine that behaves the same throughout -- on which the
    banner, printed before the loop, goes on printing -- from the start
    of the shell and through any script of lines, the model name and the
    three flags the shell shows are those the live system was built
    with. *)
Theorem shell_stays_in_sync model_id (memory storage mcp : bool) w l w1 script :
  main_start E model_id memory storage mcp w = (Ok (Some l), w1) →
  ∃ w' l', main_loop E script (w1, l) = (Ok tt, (w', l')) ∧ in_sync l'.
Proof.
  intros (Hsync & _ & _)%main_start_invariants.
  apply (main_loop_keeps (λ _ l, in_sync l)); [|done].
  intros ? ? ? ?. apply outcome_in_sync.
Qed.

(** X3: on a machine that behaves the same throughout, from the start of
    the shell and through any script of lines, the live system holds the
    adapter of the current model, the stores of the current flags and,
    as capabilities, the built-ins followed -- while MCP is on -- by what
    the current server list yields. *)
Theorem shell_stays_up_to_date model_id (memory storage mcp : bool) w l w1 script :
  main_start E model_id memory storage mcp w = (Ok (Some l), w1) →
  ∃ w' l', main_loop E script (w1, l) = (Ok tt, (w', l')) ∧ up_to_date E l'.
Proof.
  intros (_ & Hup & _)%main_start_invariants.
  apply (main_loop_keeps (λ _ l, up_to_date E l)); [|done].
  intros ? ? ? ?. apply outcome_up_to_date.
Qed.

(** X4: an iteration either keeps the live system, and draws no UUID,
    or replaces it by a system whose session identifier is the one UUID
    drawn in the iteration, which differs from the old identifier as
    long as [uuid4] does not repeat itself. *)
Theorem rebuild_changes_session user_input answers w l :
  session_drawn E w l →
  Inj (=) (=) (uuid4 E) →
  ∃ c w' l',
    loop_body E user_input answers (w, l) = (Ok c, (w', l'))
    ∧ session_drawn E w' l'
    ∧ (agent_system l' = agent_system l ∧ draws w' = draws w
       ∨ session_id (agent_system l') = uuid4 E (draws w)
         ∧ draws w' = S (draws w)
         ∧ session_id (agent_system l') ≠ session_id (agent_system l)).
Proof.
  intros Hdrawn Hinj.
  destruct (loop_body_outcome user_input answers l w) as (w' & l' & Hrun & Hout).
  destruct (outcome_session _ _ _ _ Hout Hdrawn) as (Hdrawn' & Hcases).
  eexists _, w', l'. split; [exact Hrun|]. split; [exact Hdrawn'|].
  destruct Hcases as [Hsame | (Hnew & Hd)]; [by left|right].
  split; [done|]. split; [done|].
  destruct Hdrawn as (k & Hk & Hold). rewrite Hnew, Hold.
  intros Heq%Hinj. lia.
Qed.

(** A constructor that raises at one world has not returned at
    another. *)
Lemma raises_everywhere l w e w0 self w1 :
  (rebuild E l w).1 = Raise e →
  __init__ E (current_model l) (memory_enabled l) (storage_enabled l)
    (mcp_enabled l) (Some (mcp_servers l)) w0 = (Ok self, w1) →
  False.
Proof.
  intros Hraise%rebuild_raises_stores Hinit%init_built.
  unpack_built Hinit. congruence.
Qed.

(** Takes the branch of a known command in [loop_body]. *)
Ltac enter_command Hempty Hslash Hcommand :=
  unfold loop_body; unfold try_except at 1;
  rewrite (bool_decide_eq_false_2 _ Hempty), Hslash, Hcommand;
  settle_commands.

Lemma not_empty_slash user_input :
  startswith user_input "/" = true → user_input ≠ "".
Proof. intros H ->. discriminate. Qed.

(** X5: when [/add-mcp] has put a new server in the list, MCP is on and
    the rebuild with the longer list raises, the server is taken out
    again: every local of the loop is as before and the loop goes on. *)
Theorem failed_add_mcp_is_rolled_back user_input answers (server : Server) w l e :
  startswith user_input "/" = true →
  lower E user_input = "/add-mcp" →
  crossbow_cli.add_mcp_server answers = Some server →
  server ≠ ∅ →
  mcp_enabled l = true →
  (rebuild E (set_mcp_servers (crossbow_cli.mcp_servers l ++ [server]) l) w).1
  = Raise e →
  ∃ w',
    loop_body E user_input answers (w, l) = (Ok Continue, (w', l))
    ∧ draws w' = draws w.
Proof.
  intros Hslash Hcommand Hanswer Hserver Hmcp Hraise.
  pose proof (not_empty_slash _ Hslash) as Hempty.
  enter_command Hempty Hslash Hcommand.
  unfold cmd_add_mcp. rewrite Hanswer, (bool_decide_eq_true_2 _ Hserver).
  cbn -[__init__ warnings String.append]. run_shell. rewrite Hmcp. run_shell.
  rebuild_cases self e' w1 Hinit; run_shell.
  - exfalso. eapply (raises_everywhere _ _ _ _ _ _ Hraise). exact Hinit.
  - apply init_raise_world in Hinit as [Hd _].
    eexists. split.
    + do 2 f_equal. destruct l; cbn. by rewrite removelast_last.
    + exact Hd.
Qed.

(** X6: with MCP off, [/add-mcp] only lengthens the server list: the
    live system stays, nothing is rebuilt and no UUID is drawn; when the
    helper returns nothing, every local stays as it is and no UUID is
    drawn. *)
Theorem add_mcp_while_off_only_lists user_input answers w l :
  startswith user_input "/" = true →
  lower E user_input = "/add-mcp" →
  mcp_enabled l = false →
  (∀ server : Server,
     crossbow_cli.add_mcp_server answers = Some server → server ≠ ∅ →
     ∃ w',
       loop_body E user_input answers (w, l)
       = (Ok Continue,
          (w', set_mcp_servers (crossbow_cli.mcp_servers l ++ [server]) l))
       ∧ draws w' = draws w)
  ∧ (crossbow_cli.add_mcp_server answers = None →
     ∃ w',
       loop_body E user_input answers (w, l) = (Ok Continue, (w', l))
       ∧ draws w' = draws w).
Proof.
  intros Hslash Hcommand Hmcp.
  pose proof (not_empty_slash _ Hslash) as Hempty.
  split.
  - intros server Hanswer Hserver.
    enter_command Hempty Hslash Hcommand.
    unfold cmd_add_mcp. rewrite Hanswer, (bool_decide_eq_true_2 _ Hserver).
    cbn -[__init__ warnings String.append]. run_shell. rewrite Hmcp. run_shell.
    by eexists.
  - intros Hanswer.
    enter_command Hempty Hslash Hcommand.
    unfold cmd_add_mcp. rewrite Hanswer. by exists w.
Qed.

(** X7: [/model] with the model already in use rebuilds nothing: every
    local stays as it is and no UUID is drawn; with another model whose
    rebuild raises it leaves every local as before, the current model
    included. *)
Theorem model_switch_keeps_or_rolls_back user_input answers w l :
  startswith user_input "/" = true →
  lower E user_input = "/model" →
  (crossbow_cli.get_model_input answers = current_model l →
   ∃ w',
     loop_body E user_input answers (w, l) = (Ok Continue, (w', l))
     ∧ draws w' = draws w)
  ∧ (∀ e,
       (rebuild E (set_current_model (crossbow_cli.get_model_input answers) l) w).1
       = Raise e →
       ∃ w',
         loop_body E user_input answers (w, l) = (Ok Continue, (w', l))
         ∧ draws w' = draws w).
Proof.
  intros Hslash Hcommand.
  pose proof (not_empty_slash _ Hslash) as Hempty.
  split.
  - intros Hsame.
    enter_command Hempty Hslash Hcommand.
    unfold cmd_model. run_shell.
    rewrite (bool_decide_eq_false_2 _ (λ H, H Hsame)). by exists w.
  - intros e Hraise.
    enter_command Hempty Hslash Hcommand.
    unfold cmd_model. run_shell.
    case_bool_decide; run_shell; [|by eexists].
    rebuild_cases self e' w1 Hinit; run_shell.
    + exfalso. by eapply (raises_everywhere _ _ _ _ _ _ Hraise).
    + apply init_raise_world in Hinit as [Hd _]. by eexists.
Qed.

(** X8: a line that is not a command goes to the team as it is, streamed
    and under the session identifier of the live system; whether the
    team returns or raises an [Exception] -- whose message is then
    printed -- the locals stay as they are, no UUID is drawn and the loop
    goes on; a [KeyboardInterrupt] ends the loop with the goodbye. *)
Theorem task_failure_is_contained interrupted user_input answers w l :
  user_input ≠ "" →
  startswith user_input "/" = false →
  match interrupted with
  | None =>
      ∃ w',
        loop_iteration E None user_input answers (w, l) = (Ok Continue, (w', l))
        ∧ draws w' = draws w
        ∧ TeamPrintResponse user_input true (session_id (agent_system l))
          ∈ stdout w'
        ∧ ∀ e,
            print_response_raises E user_input true (session_id (agent_system l))
            = Some e →
            Print (NL ++ "✗ Error: " ++ exc_msg e) ∈ stdout w'
  | Some reached =>
      loop_iteration E (Some reached) user_input answers (w, l)
      = (Ok Break,
         (logged reached.1 [Print (NL ++ NL ++ "👋 Goodbye! Stay secure!")],
          reached.2))
  end.
Proof.
  intros Hempty Hslash. destruct interrupted as [[w1 l1]|]; [reflexivity|].
  unfold loop_iteration, loop_body.
  rewrite (bool_decide_eq_false_2 _ Hempty), Hslash.
  apply query_reported.
Qed.

End ShellSteps.

(** ** More on the constructor and its parts *)

Section ConstructionExtras.

Context (E : Env).

Lemma agent_table_dom self : dom (agent_table self) = list_to_set agent_keys.
Proof.
  unfold agent_table, dict_of, agent_keys; simpl.
  rewrite !dom_insert_L, dom_empty_L. set_solver.
Qed.

(** X9: the team of a constructed system has the system's model and
    always appends history; it gets a database, the memory store, and
    user memories only when memory is on -- storage alone gives the team
    no database. *)
Theorem team_wiring model_name (use_memory use_storage use_mcp : bool)
    servers w self w' :
  __init__ E model_name use_memory use_storage use_mcp servers w = (Ok self, w') →
  team_kwargs (security_team self) !! "model" = Some (VModel (model self))
  ∧ team_kwargs (security_team self) !! "add_history_to_context" = Some (VBool true)
  ∧ team_kwargs (security_team self) !! "respond_directly" = Some (VBool true)
  ∧ team_kwargs (security_team self) !! "show_members_responses" = Some (VBool true)
  ∧ team_kwargs (security_team self) !! "db"
    = (if use_memory then Some (VDb (mkSqliteDb (memory_path E))) else None)
  ∧ team_kwargs (security_team self) !! "enable_user_memories"
    = (if use_memory then Some (VBool true) else None).
Proof.
  unfold __init__, bind.
  rewrite get_model_find, initialize_tools_run.
  unfold new_SqliteDb, _create_security_team, uuid_uuid4, bind, ret.
  destruct use_storage, use_memory;
    destruct (SqliteDb_raises E (storage_path E)) as [es|];
    destruct (SqliteDb_raises E (memory_path E)) as [em|];
    simpl; intros [= <- <-]; repeat split.
Qed.

Lemma agent_table_values self key a :
  agent_table self !! key = Some a → a ∈ team_members (agents self).
Proof.
  intros Hlookup.
  assert (key ∈ agent_keys) as Hkey.
  { pose proof (elem_of_dom_2 _ _ _ Hlookup) as Hdom.
    rewrite agent_table_dom in Hdom. by apply elem_of_list_to_set in Hdom. }
  unfold agent_keys in Hkey.
  repeat (apply elem_of_cons in Hkey as [-> | Hkey];
          [ vm_compute in Hlookup; injection Hlookup as <-;
            unfold team_members; set_solver | ]).
  by apply elem_of_nil in Hkey.
Qed.

(** Shows the agent of the goal under a key of the table. *)
Ltac under_key key :=
  exists key; split; [apply (bool_decide_unpack _); by vm_compute | by vm_compute].

Lemma team_members_keys self a :
  a ∈ team_members (agents self) →
  ∃ key, key ∈ agent_keys ∧ agent_table self !! key = Some a.
Proof.
  unfold team_members. intros Ha.
  repeat (apply elem_of_cons in Ha as [-> | Ha];
          [ first [ under_key "android" | under_key "blue_team"
                  | under_key "bug_bounty" | under_key "coding"
                  | under_key "dfir" | under_key "email" | under_key "memory"
                  | under_key "network" | under_key "red_team"
                  | under_key "replay" | under_key "reporting"
                  | under_key "triage" | under_key "reverse_engineering"
                  | under_key "rf" | under_key "wifi"
                  | under_key "source_code" ] | ]).
  by apply elem_of_nil in Ha.
Qed.

(** X10: what [get_agent] returns is a member of the team, and every
    member of the team is returned for one of the keys. *)
Theorem get_agent_ranges_over_team model_name
    (use_memory use_storage use_mcp : bool) servers w self w' :
  __init__ E model_name use_memory use_storage use_mcp servers w = (Ok self, w') →
  (∀ agent_type a (st : World),
     get_agent E self agent_type st = (Ok (Some a), st) →
     a ∈ members (security_team self))
  ∧ (∀ a,
       a ∈ members (security_team self) →
       ∃ key, key ∈ agent_keys ∧ agent_table self !! key = Some a).
Proof.
  intros Hinit%init_built. unpack_built Hinit. rewrite Bmembers. split.
  - intros agent_type a st [= Hlookup]. by eapply agent_table_values.
  - apply team_members_keys.
Qed.

Lemma url_based_false_command (server : Server) command :
  server !! "command" = Some command → url_based server = false.
Proof. intros H. unfold url_based. by rewrite H. Qed.

Lemma url_based_false_url (server : Server) :
  server !! "url" = None → url_based server = false.
Proof.
  intros H. unfold url_based. rewrite H.
  rewrite (bool_decide_eq_false_2 (is_Some None)); [apply andb_false_r|].
  by intros [? ?].
Qed.

Lemma url_specs_of_without (server : Server) l1 l2 :
  url_based server = false →
  url_specs_of (l1 ++ server :: l2) = url_specs_of (l1 ++ l2).
Proof.
  intros Hu. rewrite !url_specs_of_app. f_equal.
  unfold url_specs_of; simpl. by rewrite Hu.
Qed.

(** X11: a spec with neither a ['command'] nor a ['url'] is passed over
    in silence: capabilities, [self.mcp_tools] and output are those of
    the list without it. *)
Theorem keyless_spec_is_ignored (use_mcp : bool) l1 (server : Server) l2 base w :
  server !! "command" = None →
  server !! "url" = None →
  _initialize_tools E use_mcp (l1 ++ server :: l2) base w
  = _initialize_tools E use_mcp (l1 ++ l2) base w.
Proof.
  intros Hc Hu. rewrite !initialize_tools_run.
  unfold external_tools, bridge_of, warnings.
  rewrite (commands_of_without server l1 l2 Hc).
  by rewrite (url_specs_of_without server l1 l2 (url_based_false_url _ Hu)).
Qed.

(** X12: in a spec that has a ['command'], a ['url'] counts for
    nothing: the method returns and prints the same with that entry
    deleted. *)
Theorem command_spec_url_is_unused (use_mcp : bool) l1 (server : Server) l2 base w
    command :
  server !! "command" = Some command →
  _initialize_tools E use_mcp (l1 ++ server :: l2) base w
  = _initialize_tools E use_mcp (l1 ++ delete "url" server :: l2) base w.
Proof.
  intros Hc.
  assert (delete "url" server !! "command" = Some command) as Hc'
    by (by rewrite lookup_delete_ne).
  rewrite !initialize_tools_run.
  unfold external_tools, bridge_of, warnings.
  rewrite !(url_specs_of_without _ l1 l2) by (by eapply url_based_false_command).
  assert (commands_of (l1 ++ server :: l2)
          = commands_of (l1 ++ delete "url" server :: l2)) as ->; [|done].
  rewrite !commands_of_app. f_equal. unfold commands_of; simpl.
  by rewrite Hc, Hc'.
Qed.

Lemma init_store_failure model_name (use_memory use_storage use_mcp : bool)
    servers w :
  match store_failure E use_memory use_storage with
  | Some e =>
      __init__ E model_name use_memory use_storage use_mcp servers w
      = (Raise e, logged w (if use_mcp then warnings E (default [] servers) else []))
  | None =>
      ∃ self w',
        __init__ E model_name use_memory use_storage use_mcp servers w = (Ok self, w')
  end.
Proof.
  unfold store_failure, __init__, bind.
  rewrite get_model_find, initialize_tools_run.
  unfold new_SqliteDb, _create_security_team, uuid_uuid4, bind, ret.
  destruct use_storage, use_memory;
    destruct (SqliteDb_raises E (storage_path E)) as [es|];
    destruct (SqliteDb_raises E (memory_path E)) as [em|];
    simpl; eauto.
Qed.

(** X13: the constructor raises exactly when a store it is asked for
    cannot be opened, with the exception of the storage store if that
    one fails and of the memory store otherwise; it has then printed the
    MCP warnings and drawn no UUID.  Failures of MCP servers never make
    it raise. *)
Theorem init_raises_only_for_stores model_name
    (use_memory use_storage use_mcp : bool) servers w e :
  ((__init__ E model_name use_memory use_storage use_mcp servers w).1 = Raise e
   ↔ store_failure E use_memory use_storage = Some e)
  ∧ (∀ w',
       __init__ E model_name use_memory use_storage use_mcp servers w = (Raise e, w') →
       w' = logged w (if use_mcp then warnings E (default [] servers) else [])
       ∧ draws w' = draws w).
Proof.
  pose proof (init_store_failure model_name use_memory use_storage use_mcp servers w)
    as Hinit.
  destruct (store_failure E use_memory use_storage) as [e0|].
  - rewrite Hinit. cbn. split; [split; congruence|]. by intros w' [= _ <-].
  - destruct Hinit as (self & w1 & ->). cbn. split; [split; discriminate|].
    discriminate.
Qed.

(** X14: the adapter [_get_model] returns carries the identifier exactly
    as it was given -- lower-casing serves the matching only. *)
Theorem get_model_keeps_identifier {S} (model_id : string) (st : S) :
  ∃ m, _get_model E model_id st = (Ok m, st) ∧ model_id_of m = model_id.
Proof.
  rewrite get_model_find. eexists. split; [reflexivity|].
  unfold resolved.
  destruct (List.find _ providers) as [[]|]; [done..|].
  by destruct (litellm_available E).
Qed.

(** X15: when a constructed system has [self.mcp_tools] set, MCP is on,
    the value is the one bridge over all the commands of the server
    list, which is not empty, and it is among the capabilities. *)
Theorem mcp_tools_is_the_bridge model_name
    (use_memory use_storage use_mcp : bool) servers w self w' t :
  __init__ E model_name use_memory use_storage use_mcp servers w = (Ok self, w') →
  mcp_tools self = Some t →
  use_mcp = true
  ∧ t = MultiMCPTools (commands_of (default [] servers))
  ∧ commands_of (default [] servers) ≠ []
  ∧ t ∈ all_tools self.
Proof.
  intros Hinit%init_built Ht. unpack_built Hinit.
  rewrite Bbridge in Ht. rewrite Btools.
  destruct use_mcp; [|discriminate].
  unfold bridge_of, external_tools in *.
  destruct (commands_of (default [] servers)) as [|command commands]; [discriminate|].
  destruct (MultiMCPTools_raises E (command :: commands)); [discriminate|].
  injection Ht as <-. repeat split; [done|].
  rewrite elem_of_app. right. by left.
Qed.

End ConstructionExtras.

(** ** The helpers that talk to the user, and the entry points *)

Lemma models_not_empty choice v : models !! choice = Some v → v ≠ "".
Proof.
  revert choice v. change (map_Forall (λ _ v, v ≠ "") models).
  apply (bool_decide_unpack _). by vm_compute.
Qed.

Section EntryExtras.

Context (E : Env).

(** Steps of a dialog. *)
Lemma print_bind {L A} line (k : unit → M (World * L) A) w (l : L) :
  bind (print line) k (w, l) = k tt (logged w [Print line], l).
Proof. reflexivity. Qed.

Lemma input_bind_cons {A} prompt (k : string → M (World * list string) A) w line rest :
  bind (Entry.input prompt) k (w, line :: rest)
  = k line (logged w [Print prompt], rest).
Proof. reflexivity. Qed.

Lemma input_bind_nil {A} prompt (k : string → M (World * list string) A) w :
  bind (Entry.input prompt) k (w, [])
  = (Raise (mkExc OtherException "EOF when reading a line"),
     (logged w [Print prompt], [])).
Proof. reflexivity. Qed.

Ltac run_dialog :=
  repeat first [ rewrite print_bind | rewrite input_bind_cons
               | rewrite input_bind_nil ]; cbv beta.

Lemma get_model_input_result w lines :
  (get_model_input (w, lines)).1
  = match lines with
    | [] => Raise (mkExc OtherException "EOF when reading a line")
    | choice :: rest =>
        if bool_decide (choice = "0") then
          match rest with
          | [] => Raise (mkExc OtherException "EOF when reading a line")
          | custom_model :: _ =>
              Ok (if bool_decide (custom_model ≠ "") then custom_model
                  else "gpt-4o-mini")
          end
        else Ok (get_or models choice "gpt-4o-mini")
    end.
Proof.
  unfold get_model_input. run_dialog.
  destruct lines as [|choice rest]; run_dialog; [done|].
  case_bool_decide; [|done].
  destruct rest; run_dialog; done.
Qed.

Lemma command_config_ok server_name command w lines :
  server_name ≠ "" → command ≠ "" →
  (configured (dict_of [("name", server_name); ("command", command)]) (w, lines)).1
  = Ok (Some (dict_of [("name", server_name); ("command", command)]))
  ∧ well_formed (dict_of [("name", server_name); ("command", command)])
  ∧ commands_of [dict_of [("name", server_name); ("command", command)]] ≠ [].
Proof.
  intros Hn Hc. split; [|split].
  - unfold configured, getitem.
    replace (dict_of [("name", server_name); ("command", command)] !! "name")
      with (Some server_name) by (by vm_compute).
    replace (dict_of [("name", server_name); ("command", command)] !! "command")
      with (Some command) by (by vm_compute).
    rewrite bool_decide_eq_true_2 by eauto.
    unfold ret at 1. run_dialog. unfold bind, ret, print, modify. done.
  - split; [exists server_name; split; [by vm_compute|done]|].
    left. exists command. split; [by vm_compute|]. split; [done|by vm_compute].
  - unfold commands_of; simpl.
    replace (dict_of [("name", server_name); ("command", command)] !! "command")
      with (Some command) by (by vm_compute).
    done.
Qed.

Lemma url_config_ok server_name url w lines :
  server_name ≠ "" → url ≠ "" →
  (configured
     (dict_of [("name", server_name); ("url", url); ("transport", "streamable-http")])
     (w, lines)).1
  = Ok (Some (dict_of [("name", server_name); ("url", url);
                       ("transport", "streamable-http")]))
  ∧ well_formed (dict_of [("name", server_name); ("url", url);
                          ("transport", "streamable-http")])
  ∧ url_specs_of [dict_of [("name", server_name); ("url", url);
                           ("transport", "streamable-http")]]
    = [dict_of [("name", server_name); ("url", url);
                ("transport", "streamable-http")]].
Proof.
  intros Hn Hu.
  set (cfg := dict_of [("name", server_name); ("url", url);
                       ("transport", "streamable-http")]).
  assert (cfg !! "name" = Some server_name) as Hname by (by vm_compute).
  assert (cfg !! "command" = None) as Hcommand by (by vm_compute).
  assert (cfg !! "url" = Some url) as Hurl by (by vm_compute).
  assert (cfg !! "transport" = Some "streamable-http") as Htransport
    by (by vm_compute).
  split; [|split].
  - unfold configured, getitem. rewrite Hname, Hcommand, Hurl, Htransport.
    rewrite bool_decide_eq_false_2 by (by intros [? ?]).
    unfold ret at 1. run_dialog. unfold bind, ret, print, modify. done.
  - split; [by exists server_name|]. right. by exists url.
  - unfold url_specs_of, url_based; simpl. rewrite Hcommand, Hurl.
    rewrite !bool_decide_eq_true_2 by eauto. done.
Qed.

(** Settle the configuration the dialog ends with. *)
Ltac answer_command :=
  match goal with
  | |- context [configured (dict_of [("name", ?n); ("command", ?c)]) (?w, ?l)] =>
      let H := fresh in
      destruct (command_config_ok n c w l) as (-> & H & ?);
      [try discriminate; done .. | by split; [|left]]
  end.

Ltac answer_url :=
  match goal with
  | |- context [configured (dict_of [("name", ?n); ("url", ?u); ("transport", ?t)])
                  (?w, ?l)] =>
      let H := fresh in
      destruct (url_config_ok n u w l) as (-> & H & ?);
      [done .. | by split; [|right]]
  end.

(** X18: whatever is typed, [add_mcp_server] raises only when the input
    ends before its questions do, which are four at most; a
    configuration it returns has a non-empty name and either a non-empty
    command and no URL, or a non-empty URL, no command and the streaming
    transport -- so [_initialize_tools] takes it for a command or for a
    URL-based server, never passes it over. *)
Theorem add_mcp_server_answer w lines :
  match (add_mcp_server E (w, lines)).1 with
  | Ok (Some server_config) =>
      well_formed server_config
      ∧ (commands_of [server_config] ≠ [] ∨ url_specs_of [server_config] = [server_config])
  | Ok None => True
  | Raise _ => (length lines < 4)%nat
  end.
Proof.
  unfold add_mcp_server. run_dialog.
  destruct lines as [|choice lines]; run_dialog; [cbn; lia|].
  case_bool_decide; run_dialog; [done|].
  case_bool_decide.
  { destruct lines as [|typed lines]; run_dialog; [cbn; lia|].
    case_bool_decide; answer_command. }
  do 4 (case_bool_decide; [answer_command|]).
  case_bool_decide.
  { destruct lines as [|server_name lines]; run_dialog; [cbn; lia|].
    destruct lines as [|url lines]; run_dialog; [cbn; lia|].
    do 2 (case_bool_decide; cbn [orb]; run_dialog; [done|]).
    answer_url. }
  case_bool_decide; run_dialog; [|done].
  destruct lines as [|server_name lines]; run_dialog; [cbn; lia|].
  destruct lines as [|typed lines]; run_dialog; [cbn; lia|].
  do 2 (case_bool_decide; cbn [orb]; run_dialog; [done|]).
  case_bool_decide.
  - destruct lines as [|command lines]; run_dialog; [cbn; lia|].
    case_bool_decide; run_dialog; [done|]. answer_command.
  - destruct lines as [|url lines]; run_dialog; [cbn; lia|].
    case_bool_decide; run_dialog; [done|]. answer_url.
Qed.


(** X16: [get_model_input] raises only when the input ends before its
    one or two questions do; the model identifier it returns is never
    empty, and pressing Enter at the menu gives ["gpt-4o-mini"]. *)
Theorem get_model_input_answer w lines :
  match (get_model_input (w, lines)).1 with
  | Ok model_id =>
      model_id ≠ "" ∧ (∀ rest, lines = "" :: rest → model_id = "gpt-4o-mini")
  | Raise _ => (length lines < 2)%nat
  end.
Proof.
  rewrite get_model_input_result.
  destruct lines as [|choice rest]; [cbn; lia|].
  case_bool_decide as Hchoice.
  - destruct rest as [|custom_model rest]; [cbn; lia|].
    split; [by case_bool_decide|]. intros rest' [= -> _]. discriminate.
  - split.
    + unfold get_or. destruct (models !! choice) as [v|] eqn:Hv; [|done].
      by eapply models_not_empty.
    + by intros rest' [= -> _].
Qed.

Lemma models_choices choice v :
  models !! choice = Some v →
  choice ∈ ["1"; "2"; "3"; "4"; "5"; "6"; "7"; "8"].
Proof.
  intros Hdom%elem_of_dom_2.
  unfold models, dict_of in Hdom; cbn [fold_left fst snd] in Hdom.
  rewrite !dom_insert_L, dom_empty_L in Hdom.
  repeat (apply elem_of_union in Hdom as [Hdom%elem_of_singleton | Hdom];
          [subst; apply (bool_decide_unpack _); by vm_compute|]).
  by apply not_elem_of_empty in Hdom.
Qed.

(** X17: each model of the menu goes, in [_get_model], to the adapter
    of the provider under whose heading the menu prints it, on any
    machine whose [lower] leaves that identifier as it is. *)
Theorem menu_models_resolve_as_advertised {S} choice v p (st : S) :
  models !! choice = Some v →
  advertised choice = Some p →
  lower E v = v →
  _get_model E v st = (Ok (adapter p v), st).
Proof.
  intros Hv Hp Hlower. rewrite get_model_find.
  unfold resolved, providers, names; cbn [List.find existsb fragments].
  rewrite Hlower. clear Hlower.
  pose proof (models_choices _ _ Hv) as Hchoice.
  repeat (apply elem_of_cons in Hchoice as [-> | Hchoice];
          [ vm_compute in Hv; injection Hv as <-;
            vm_compute in Hp; injection Hp as <-; by vm_compute | ]).
  by apply elem_of_nil in Hchoice.
Qed.

Lemma agent_main_run key w :
  is_set key = true →
  agent_main E key w
  = (match print_response_raises E example_task true (uuid4 E (draws w)) with
     | Some e => Raise e
     | None => Ok tt
     end,
     mkWorld (S (draws w))
       (stdout w
        ++ [ Print (NL ++ "🔒 Initializing Security Agent System..." ++ NL);
             TeamPrintResponse example_task true (uuid4 E (draws w)) ])).
Proof.
  intros Hkey. unfold agent_main. rewrite Hkey. cbn [negb].
  unfold bind at 1. unfold emit at 1, modify at 1.
  destruct (init_returns E "gpt-4o-mini" false false false None
              (mkWorld (draws w)
                 (stdout w
                  ++ [Print (NL ++ "🔒 Initializing Security Agent System..." ++ NL)])))
    as (self & w1 & Hinit); [done|].
  unfold bind. rewrite Hinit.
  apply init_built in Hinit. unpack_built Hinit.
  unfold run_assessment, print_response, bind, emit, modify.
  rewrite Bsid. subst w1. cbn [draws stdout default].
  rewrite app_nil_r, <- app_assoc.
  by destruct (print_response_raises E example_task true (uuid4 E (draws w))).
Qed.

(** X19: with [OPENAI_API_KEY] set, [main] of [Agent.py] always gets
    its system built -- it asks for no store -- draws one UUID and
    submits the example task once, streamed, under that identifier; it
    raises only if the team does. *)
Theorem agent_main_with_key key w :
  is_set key = true →
  (agent_main E key w).2
  = mkWorld (S (draws w))
      (stdout w
       ++ [ Print (NL ++ "🔒 Initializing Security Agent System..." ++ NL);
            TeamPrintResponse example_task true (uuid4 E (draws w)) ])
  ∧ ((agent_main E key w).1 = Ok tt
     ∨ ∃ e,
         print_response_raises E example_task true (uuid4 E (draws w)) = Some e
         ∧ (agent_main E key w).1 = Raise e).
Proof.
  intros Hkey. rewrite (agent_main_run key w Hkey). split; [done|].
  destruct (print_response_raises E example_task true (uuid4 E (draws w))) as [e|];
    cbn; eauto.
Qed.

(** X20: with [OPENAI_API_KEY] unset or empty, neither entry point
    builds a system, whatever the model asked for: [main] of [Agent.py]
    returns and [main] of the shell exits, after printing only, with no
    UUID drawn and no task submitted. *)
Theorem no_key_no_system args_model LLM_MODEL_ID
    (args_memory args_storage args_mcp : bool) key w :
  is_set key = false →
  (∃ w', agent_main E key w = (Ok tt, w')
         ∧ draws w' = draws w
         ∧ ∀ task stream sid,
             TeamPrintResponse task stream sid ∈ stdout w' →
             TeamPrintResponse task stream sid ∈ stdout w)
  ∧ (∃ w', main_setup E args_model LLM_MODEL_ID args_memory args_storage args_mcp key w
           = (Ok None, w')
           ∧ draws w' = draws w).
Proof.
  intros Hkey. unfold agent_main, main_setup. rewrite Hkey. cbn [negb].
  unfold bind, emit, modify, ret. cbn. split.
  - eexists. split; [reflexivity|]. split; [done|].
    intros task stream sid. cbn [stdout].
    rewrite !elem_of_app, !list_elem_of_singleton.
    intros H.
    repeat match type of H with
           | _ ∨ _ => destruct H as [H|H]; [|discriminate]
           end.
    done.
  - eexists. split; [reflexivity|done].
Qed.

Lemma choose_model_id_not_empty args_model LLM_MODEL_ID :
  choose_model_id args_model LLM_MODEL_ID ≠ "".
Proof.
  unfold choose_model_id, is_set.
  destruct args_model as [model_id|]; cbn.
  - case_bool_decide; [done|]. by case_bool_decide.
  - by case_bool_decide.
Qed.

(** X21: with the key set, the shell either starts, with a model
    identifier that is not empty and an empty server list, or -- exactly
    when a store it is asked for cannot be opened -- exits without
    having drawn a UUID. *)
Theorem main_setup_starts_or_exits args_model LLM_MODEL_ID
    (args_memory args_storage args_mcp : bool) key w :
  is_set key = true →
  ∃ w',
    (draws w ≤ draws w')%nat
    ∧ match store_failure E args_memory args_storage with
      | None =>
          ∃ self,
            main_setup E args_model LLM_MODEL_ID args_memory args_storage args_mcp key w
            = (Ok (Some (crossbow_cli.mkLocals
                           (choose_model_id args_model LLM_MODEL_ID)
                           args_memory args_storage args_mcp [] self)), w')
            ∧ choose_model_id args_model LLM_MODEL_ID ≠ ""
      | Some e =>
          main_setup E args_model LLM_MODEL_ID args_memory args_storage args_mcp key w
          = (Ok None, w')
          ∧ draws w' = draws w
      end.
Proof.
  intros Hkey. unfold main_setup. cbv zeta. rewrite Hkey. cbn [negb].
  unfold crossbow_cli.main_start, try_except, bind at 1 2.
  pose proof (init_store_failure E (choose_model_id args_model LLM_MODEL_ID)
                args_memory args_storage args_mcp (Some []) w) as Hinit.
  destruct (store_failure E args_memory args_storage) as [e|].
  - rewrite Hinit. unfold bind, emit, modify, ret. cbn.
    eexists. split; [|split; [reflexivity|done]]. done.
  - destruct Hinit as (self & w1 & Hinit). unfold bind. rewrite Hinit.
    apply init_built in Hinit. unpack_built Hinit.
    unfold bind, emit, modify, ret. cbn.
    eexists. split; [|exists self; split; [reflexivity|]].
    + subst w1. cbn. lia.
    + apply choose_model_id_not_empty.
Qed.

End EntryExtras.

(** ** More runs on a machine *)

Import Play.

Lemma git_server_not_empty : git_server ≠ ∅.
Proof.
  intros H. apply (f_equal (λ m : Server, m !! "name")) in H.
  vm_compute in H. discriminate.
Qed.

Lemma shell_stays_in_sync_witness :
  ∃ l w1,
    main_start healthy "gpt-4o-mini" false false false boot = (Ok (Some l), w1)
    ∧ ∃ w' l', main_loop healthy a_script (w1, l) = (Ok tt, (w', l')) ∧ in_sync l'.
Proof.
  destruct (main_start_returns healthy "gpt-4o-mini" false false false boot)
    as (self & w1 & Hstart); [by vm_compute|].
  eexists _, _. split; [exact Hstart|].
  exact (shell_stays_in_sync healthy _ _ _ _ _ _ _ a_script Hstart).
Defined.

Lemma shell_stays_up_to_date_witness :
  ∃ l w1,
    main_start healthy "gpt-4o-mini" false false false boot = (Ok (Some l), w1)
    ∧ ∃ w' l',
        main_loop healthy a_script (w1, l) = (Ok tt, (w', l'))
        ∧ up_to_date healthy l'.
Proof.
  destruct (main_start_returns healthy "gpt-4o-mini" false false false boot)
    as (self & w1 & Hstart); [by vm_compute|].
  eexists _, _. split; [exact Hstart|].
  exact (shell_stays_up_to_date healthy _ _ _ _ _ _ _ a_script Hstart).
Defined.

Lemma rebuild_changes_session_witness :
  ∃ l w1,
    main_start healthy "gpt-4o-mini" false false false boot = (Ok (Some l), w1)
    ∧ session_drawn healthy w1 l
    ∧ ∃ c w' l',
        loop_body healthy "/memory" no_answers (w1, l) = (Ok c, (w', l'))
        ∧ session_drawn healthy w' l'
        ∧ (agent_system l' = agent_system l ∧ draws w' = draws w1
           ∨ session_id (agent_system l') = uuid4 healthy (draws w1)
             ∧ draws w' = S (draws w1)
             ∧ session_id (agent_system l') ≠ session_id (agent_system l)).
Proof.
  destruct (main_start_returns healthy "gpt-4o-mini" false false false boot)
    as (self & w1 & Hstart); [by vm_compute|].
  destruct (main_start_invariants healthy _ _ _ _ _ _ _ Hstart) as (_ & _ & Hdrawn).
  eexists _, _. split; [exact Hstart|]. split; [exact Hdrawn|].
  exact (rebuild_changes_session healthy "/memory" no_answers _ _ Hdrawn
           pretty_session_inj).
Defined.

(** Storage and MCP on; the storage database then gets locked, and a
    server is added. *)
Lemma failed_add_mcp_is_rolled_back_witness :
  ∃ l w,
    main_start healthy "gpt-4o-mini" false true true boot = (Ok (Some l), w)
    ∧ git_server ≠ ∅
    ∧ (rebuild storage_locked
         (set_mcp_servers (crossbow_cli.mcp_servers l ++ [git_server]) l) w).1
      = Raise not_opened
    ∧ ∃ w',
        loop_body storage_locked "/Add-MCP" git_answers (w, l)
        = (Ok Continue, (w', l))
        ∧ draws w' = draws w.
Proof.
  destruct (main_start_returns healthy "gpt-4o-mini" false true true boot)
    as (self & w & Hstart); [by vm_compute|].
  eexists _, _. split; [exact Hstart|]. split; [exact git_server_not_empty|].
  match goal with
  | |- (rebuild ?E' ?l' ?w0).1 = ?r ∧ _ =>
      assert ((rebuild E' l' w0).1 = r) as Hraise by (by vm_compute)
  end.
  split; [exact Hraise|].
  exact (failed_add_mcp_is_rolled_back storage_locked "/Add-MCP" git_answers
           git_server w (mkLocals "gpt-4o-mini" false true true [] self)
           not_opened eq_refl eq_refl eq_refl
           git_server_not_empty eq_refl Hraise).
Defined.

Lemma add_mcp_while_off_only_lists_witness :
  ∃ l w,
    main_start healthy "gpt-4o-mini" false false false boot = (Ok (Some l), w)
    ∧ mcp_enabled l = false
    ∧ ∃ w',
        loop_body healthy "/add-mcp" git_answers (w, l)
        = (Ok Continue,
           (w', set_mcp_servers (crossbow_cli.mcp_servers l ++ [git_server]) l))
        ∧ draws w' = draws w.
Proof.
  destruct (main_start_returns healthy "gpt-4o-mini" false false false boot)
    as (self & w & Hstart); [by vm_compute|].
  eexists _, _. split; [exact Hstart|]. split; [reflexivity|].
  exact (proj1 (add_mcp_while_off_only_lists healthy "/add-mcp" git_answers w
                  (mkLocals "gpt-4o-mini" false false false [] self)
                  eq_refl eq_refl eq_refl)
           git_server eq_refl git_server_not_empty).
Defined.

Lemma model_switch_keeps_or_rolls_back_witness :
  ∃ l w,
    main_start healthy "gpt-4o-mini" false false false boot = (Ok (Some l), w)
    ∧ crossbow_cli.get_model_input no_answers = current_model l
    ∧ ∃ w',
        loop_body healthy "/model" no_answers (w, l) = (Ok Continue, (w', l))
        ∧ draws w' = draws w.
Proof.
  destruct (main_start_returns healthy "gpt-4o-mini" false false false boot)
    as (self & w & Hstart); [by vm_compute|].
  eexists _, _. split; [exact Hstart|]. split; [reflexivity|].
  exact (proj1 (model_switch_keeps_or_rolls_back healthy "/model" no_answers w
                  (mkLocals "gpt-4o-mini" false false false [] self)
                  eq_refl eq_refl) eq_refl).
Defined.

Lemma task_failure_is_contained_witness :
  ∃ l w,
    main_start healthy "gpt-4o-mini" false false false boot = (Ok (Some l), w)
    ∧ "list OWASP Top 10 categories" ≠ ""
    ∧ startswith "list OWASP Top 10 categories" "/" = false
    ∧ ∃ w',
        loop_iteration healthy None "list OWASP Top 10 categories" no_answers
          (w, l)
        = (Ok Continue, (w', l))
        ∧ draws w' = draws w
        ∧ TeamPrintResponse "list OWASP Top 10 categories" true
            (session_id (agent_system l)) ∈ stdout w'.
Proof.
  destruct (main_start_returns healthy "gpt-4o-mini" false false false boot)
    as (self & w & Hstart); [by vm_compute|].
  eexists _, _. split; [exact Hstart|].
  assert ("list OWASP Top 10 categories" ≠ "") as Hne by discriminate.
  split; [exact Hne|]. split; [reflexivity|].
  destruct (task_failure_is_contained healthy None "list OWASP Top 10 categories"
              no_answers w (mkLocals "gpt-4o-mini" false false false [] self)
              Hne eq_refl) as (w' & Hrun & Hd & Hsent & _).
  exists w'. split; [exact Hrun|]. split; [exact Hd|exact Hsent].
Defined.

(** Storage on, memory off: the specialists get the storage store, the
    team gets none. *)
Lemma team_wiring_witness :
  ∃ self w',
    __init__ healthy "gpt-4o-mini" false true false None boot = (Ok self, w')
    ∧ team_kwargs (security_team self) !! "add_history_to_context"
      = Some (VBool true)
    ∧ team_kwargs (security_team self) !! "db" = None
    ∧ team_kwargs (security_team self) !! "enable_user_memories" = None.
Proof.
  destruct (init_returns healthy "gpt-4o-mini" false true false None boot)
    as (self & w' & Hinit); [by vm_compute|].
  exists self, w'. split; [exact Hinit|].
  destruct (team_wiring healthy _ _ _ _ _ _ _ _ Hinit)
    as (_ & Hhistory & _ & _ & Hdb & Hmemories).
  split; [exact Hhistory|]. split; [exact Hdb|exact Hmemories].
Defined.

Lemma get_agent_ranges_over_team_witness :
  ∃ self w',
    __init__ healthy "gpt-4o-mini" false false false None boot = (Ok self, w')
    ∧ ∃ key,
        key ∈ agent_keys
        ∧ agent_table self !! key = Some (subghz_agent (agents self)).
Proof.
  destruct (init_returns healthy "gpt-4o-mini" false false false None boot)
    as (self & w' & Hinit); [by vm_compute|].
  exists self, w'. split; [exact Hinit|].
  apply (proj2 (get_agent_ranges_over_team healthy _ _ _ _ _ _ _ _ Hinit)).
  destruct (init_built healthy _ _ _ _ _ _ _ _ Hinit) as [].
  rewrite built_members0. unfold team_members.
  do 13 apply list_elem_of_further. apply list_elem_of_here.
Defined.

Lemma keyless_spec_is_ignored_witness :
  nameless_server !! "command" = None
  ∧ nameless_server !! "url" = None
  ∧ _initialize_tools healthy true ([git_server] ++ nameless_server :: [docs_server])
      the_base_tools boot
    = _initialize_tools healthy true ([git_server] ++ [docs_server])
        the_base_tools boot.
Proof.
  assert (nameless_server !! "command" = None) as Hc by (by vm_compute).
  assert (nameless_server !! "url" = None) as Hu by (by vm_compute).
  split; [exact Hc|]. split; [exact Hu|].
  exact (keyless_spec_is_ignored healthy true [git_server] nameless_server
           [docs_server] the_base_tools boot Hc Hu).
Defined.

Lemma command_spec_url_is_unused_witness :
  hybrid_server !! "command" = Some "npx -y @modelcontextprotocol/server-memory"
  ∧ _initialize_tools healthy true ([git_server] ++ hybrid_server :: [docs_server])
      the_base_tools boot
    = _initialize_tools healthy true
        ([git_server] ++ delete "url" hybrid_server :: [docs_server])
        the_base_tools boot.
Proof.
  assert (hybrid_server !! "command"
          = Some "npx -y @modelcontextprotocol/server-memory") as Hc
    by (by vm_compute).
  split; [exact Hc|].
  exact (command_spec_url_is_unused healthy true [git_server] hybrid_server
           [docs_server] the_base_tools boot _ Hc).
Defined.

Lemma init_raises_only_for_stores_witness :
  store_failure storage_locked true true = Some not_opened
  ∧ (__init__ storage_locked "gpt-4o-mini" true true true
       (Some [git_server; down_server]) boot).1
    = Raise not_opened.
Proof.
  assert (store_failure storage_locked true true = Some not_opened) as Hfail
    by (by vm_compute).
  split; [exact Hfail|].
  exact (proj2 (proj1 (init_raises_only_for_stores storage_locked "gpt-4o-mini"
                         true true true (Some [git_server; down_server]) boot
                         not_opened)) Hfail).
Defined.

Lemma mcp_tools_is_the_bridge_witness :
  ∃ self w',
    __init__ healthy "gpt-4o-mini" false false true
      (Some [git_server; docs_server]) boot = (Ok self, w')
    ∧ mcp_tools self
      = Some (MultiMCPTools ["npx -y @modelcontextprotocol/server-git"])
    ∧ MultiMCPTools ["npx -y @modelcontextprotocol/server-git"] ∈ all_tools self.
Proof.
  destruct (init_returns healthy "gpt-4o-mini" false false true
              (Some [git_server; docs_server]) boot)
    as (self & w' & Hinit); [by vm_compute|].
  exists self, w'. split; [exact Hinit|].
  assert (mcp_tools self
          = Some (MultiMCPTools ["npx -y @modelcontextprotocol/server-git"]))
    as Hbridge.
  { destruct (init_built healthy _ _ _ _ _ _ _ _ Hinit) as [].
    rewrite built_mcp_tools0. by vm_compute. }
  split; [exact Hbridge|].
  exact (proj2 (proj2 (proj2
           (mcp_tools_is_the_bridge healthy _ _ _ _ _ _ _ _ _ Hinit Hbridge)))).
Defined.

Lemma get_model_input_answer_witness :
  (get_model_input (boot, ["0"; "my-org/my-model"])).1 = Ok "my-org/my-model"
  ∧ "my-org/my-model" ≠ "".
Proof.
  assert ((get_model_input (boot, ["0"; "my-org/my-model"])).1
          = Ok "my-org/my-model") as Hrun by (by vm_compute).
  split; [exact Hrun|].
  pose proof (get_model_input_answer boot ["0"; "my-org/my-model"]) as Hanswer.
  rewrite Hrun in Hanswer. exact (proj1 Hanswer).
Defined.

Lemma menu_models_resolve_as_advertised_witness :
  models !! "7" = Some "gemini-2.0-flash-exp"
  ∧ advertised "7" = Some Google
  ∧ lower healthy "gemini-2.0-flash-exp" = "gemini-2.0-flash-exp"
  ∧ _get_model healthy "gemini-2.0-flash-exp" boot
    = (Ok (Gemini "gemini-2.0-flash-exp"), boot).
Proof.
  assert (models !! "7" = Some "gemini-2.0-flash-exp") as Hv by (by vm_compute).
  assert (advertised "7" = Some Google) as Hp by (by vm_compute).
  split; [exact Hv|]. split; [exact Hp|]. split; [reflexivity|].
  exact (menu_models_resolve_as_advertised healthy "7" "gemini-2.0-flash-exp"
           Google boot Hv Hp eq_refl).
Defined.

Example add_mcp_server_custom_url :
  (add_mcp_server healthy
     (boot, ["0"; "Docs"; "URL"; "https://docs.agno.com/mcp"])).1
  = Ok (Some (dict_of [ ("name", "Docs"); ("url", "https://docs.agno.com/mcp");
                        ("transport", "streamable-http") ])).
Proof. vm_compute. reflexivity. Qed.

Example add_mcp_server_cancelled :
  (add_mcp_server healthy (boot, [""])).1 = Ok None.
Proof. by vm_compute. Qed.

Example add_mcp_server_input_ends :
  (add_mcp_server healthy (boot, ["6"; "Docs"])).1
  = Raise (mkExc OtherException "EOF when reading a line").
Proof. by vm_compute. Qed.

Lemma agent_main_with_key_witness :
  is_set (Some "sk-test") = true
  ∧ (agent_main healthy (Some "sk-test") boot).2
    = mkWorld 1
        [ Print (NL ++ "🔒 Initializing Security Agent System..." ++ NL);
          TeamPrintResponse example_task true "session-0" ].
Proof.
  split; [reflexivity|].
  exact (proj1 (agent_main_with_key healthy (Some "sk-test") boot eq_refl)).
Defined.

Lemma no_key_no_system_witness :
  is_set (Some "") = false
  ∧ ∃ w',
      main_setup healthy (Some "claude-sonnet-4-5") "" true true true (Some "") boot
      = (Ok None, w')
      ∧ draws w' = draws boot.
Proof.
  split; [reflexivity|].
  exact (proj2 (no_key_no_system healthy (Some "claude-sonnet-4-5") "" true true
                  true (Some "") boot eq_refl)).
Defined.

Lemma main_setup_starts_or_exits_witness :
  is_set (Some "sk-test") = true
  ∧ store_failure storage_locked false true = Some not_opened
  ∧ ∃ w',
      main_setup storage_locked None "gpt-4o" false true false (Some "sk-test") boot
      = (Ok None, w')
      ∧ draws w' = draws boot.
Proof.
  split; [reflexivity|].
  assert (store_failure storage_locked false true = Some not_opened) as Hfail
    by (by vm_compute).
  split; [exact Hfail|].
  destruct (main_setup_starts_or_exits storage_locked None "gpt-4o" false true false
              (Some "sk-test") boot eq_refl) as (w' & _ & Hcases).
  rewrite Hfail in Hcases. by exists w'.
Defined.
